(** * USDebtLive: the debt-update script [main.py], embedded and verified

    The script fetches three records of the "Debt to the Penny" dataset,
    computes a daily and a weekly delta, formats a text and posts it.

    The embedding follows the source function by function.

    - Python [float] is IEEE 754 binary64: [spec_float] of the standard
      library with precision 53 and [emax] 1024; subtraction, division,
      comparison and [abs] are the standard library's specifications.
    - The format specification [,.2f] is the exact decimal expansion of the
      binary value rounded half-even to two places, with a comma between
      groups of three integer digits.
    - A [date] is its proleptic Gregorian ordinal (Python's [toordinal]).
    - What the script reads from outside (HTTP answers, environment, clock,
      the two library parsers) is a field of [World]; what it does to the
      outside (HTTP calls, printed lines) is appended to a trace of events. *)

From Stdlib Require Import ZArith Lia List Ascii String Bool Sorted.
From Stdlib Require Import Floats.SpecFloat.
From stdpp Require Import base option list strings gmap.

Local Open Scope Z_scope.

(** ** Binary64 floats *)

Module Float.

Definition float := spec_float.

Definition prec : Z := 53.
Definition emax : Z := 1024.

(** A Python float is always a valid binary64 value. *)
Definition is_binary64 (x : float) : Prop := valid_binary prec emax x = true.

Definition is_finite (x : float) : bool :=
  match x with
  | S754_zero _ | S754_finite _ _ _ => true
  | S754_infinity _ | S754_nan => false
  end.

Definition sub : float -> float -> float := SFsub prec emax.
Definition div : float -> float -> float := SFdiv prec emax.
Definition abs : float -> float := SFabs.

(** [x >= y] on floats; false as soon as one side is a NaN. *)
Definition geb (x y : float) : bool :=
  match SFcompare x y with
  | Some Gt | Some Eq => true
  | _ => false
  end.

(** The float of an integer literal (exact below [2^53]). *)
Definition of_Z (n : Z) : float := binary_normalize prec emax n 0 false.

Definition zero : float := S754_zero false.

(** The exact value of a finite float as a fraction [num / den], [den > 0],
    sign dropped. *)
Definition abs_num (x : float) : Z :=
  match x with
  | S754_finite _ m e => Z.pos m * 2 ^ Z.max e 0
  | _ => 0
  end.

Definition abs_den (x : float) : Z :=
  match x with
  | S754_finite _ m e => 2 ^ Z.max (- e) 0
  | _ => 1
  end.

Definition sign_bit (x : float) : bool :=
  match x with
  | S754_zero s | S754_infinity s | S754_finite s _ _ => s
  | S754_nan => false
  end.

End Float.

Import Float.

(** ** Python's [format(x, ',.2f')] *)

Module PyFormat.

(** Nearest integer to [num / den], ties to the even one ([den > 0]). *)
Definition round_half_even (num den : Z) : Z :=
  let q := num / den in
  let r := num mod den in
  match 2 * r ?= den with
  | Lt => q
  | Gt => q + 1
  | Eq => if Z.even q then q else q + 1
  end.

(** [|x| * 100] rounded to an integer: the digits that [.2f] prints. *)
Definition cents (x : float) : Z :=
  round_half_even (100 * abs_num x) (abs_den x).

Definition digit_char (d : Z) : ascii := ascii_of_N (48 + Z.to_N d).

(** Decimal digits of [n >= 0], least significant first. *)
Fixpoint digits_lsf (fuel : nat) (n : Z) : list ascii :=
  match fuel with
  | O => []
  | S k =>
      if n <? 10 then [digit_char n]
      else digit_char (n mod 10) :: digits_lsf k (n / 10)
  end.

Definition digits_fuel (n : Z) : nat := S (Z.to_nat (Z.log2 n)).

(** A comma after every third digit, counted from the units. *)
Fixpoint group3 (ds : list ascii) : list ascii :=
  match ds with
  | a :: b :: c :: ((_ :: _) as rest) => a :: b :: c :: ","%char :: group3 rest
  | _ => ds
  end.

Definition string_of_chars (l : list ascii) : string := string_of_list_ascii l.

(** The integer part with thousands separators. *)
Definition grouped_int (n : Z) : string :=
  string_of_chars (rev (group3 (digits_lsf (digits_fuel n) n))).

(** Two digits, zero padded. *)
Definition two_digits (n : Z) : string :=
  String (digit_char (n / 10)) (String (digit_char (n mod 10)) EmptyString).

Definition fixed2 (c : Z) : string :=
  grouped_int (c / 100) +:+ "." +:+ two_digits (c mod 100).

Definition sign_prefix (s : bool) : string := if s then "-" else EmptyString.

(** [f"{x:,.2f}"] *)
Definition format_comma_2f (x : float) : string :=
  match x with
  | S754_nan => "nan"
  | S754_infinity s => sign_prefix s +:+ "inf"
  | S754_zero s => sign_prefix s +:+ fixed2 0
  | S754_finite s _ _ => sign_prefix s +:+ fixed2 (cents x)
  end.

End PyFormat.

Import PyFormat.

(** ** The formatting helpers of [main.py] *)

Definition one_billion : float := Eval vm_compute in Float.of_Z 1000000000.

(** [def billions(x): return x / 1_000_000_000.0] *)
Definition billions (x : float) : float := Float.div x one_billion.

(** [def format_billions(delta)] *)
Definition format_billions (delta : float) : string :=
  let sign : string := if Float.geb delta Float.zero then "+" else "-" in
  sign +:+ "$" +:+ format_comma_2f (Float.abs (billions delta)) +:+ " B".

(** ** Calendar dates

    A date is its proleptic Gregorian ordinal, day 1 being 0001-01-01, as
    [datetime.date.toordinal] numbers them.  The conversions follow
    [_ord2ymd] and [_ymd2ord] of the [datetime] module. *)

Module Date.

Definition MINORDINAL : Z := 1.
Definition MAXORDINAL : Z := 3652059.

Definition in_range (n : Z) : bool := (MINORDINAL <=? n) && (n <=? MAXORDINAL).

Definition is_leap (y : Z) : bool :=
  (y mod 4 =? 0) && (negb (y mod 100 =? 0) || (y mod 400 =? 0)).

Definition days_before_year (year : Z) : Z :=
  let y := year - 1 in y * 365 + y / 4 - y / 100 + y / 400.

Definition DAYS_IN_MONTH : list Z := [31; 28; 31; 30; 31; 30; 31; 31; 30; 31; 30; 31].
Definition DAYS_BEFORE_MONTH : list Z := [0; 31; 59; 90; 120; 151; 181; 212; 243; 273; 304; 334].

Definition table (t : list Z) (month : Z) : Z := nth (Z.to_nat (month - 1)) t 0.

Definition days_in_month (year month : Z) : Z :=
  if (month =? 2) && is_leap year then 29 else table DAYS_IN_MONTH month.

Definition days_before_month (year month : Z) : Z :=
  table DAYS_BEFORE_MONTH month + (if (2 <? month) && is_leap year then 1 else 0).

Definition ymd2ord (year month day : Z) : Z :=
  days_before_year year + days_before_month year month + day.

Definition ord2ymd (ordinal : Z) : Z * Z * Z :=
  let n := ordinal - 1 in
  let n400 := n / 146097 in
  let n := n mod 146097 in
  let year := n400 * 400 + 1 in
  let n100 := n / 36524 in
  let n := n mod 36524 in
  let n4 := n / 1461 in
  let n := n mod 1461 in
  let n1 := n / 365 in
  let n := n mod 365 in
  let year := year + n100 * 100 + n4 * 4 + n1 in
  if (n1 =? 4) || (n100 =? 4) then (year - 1, 12, 31)
  else
    let leapyear := (n1 =? 3) && (negb (n4 =? 24) || (n100 =? 3)) in
    let month := Z.shiftr (n + 50) 5 in
    let preceding :=
      table DAYS_BEFORE_MONTH month + (if (2 <? month) && leapyear then 1 else 0) in
    if n <? preceding then
      let month := month - 1 in
      let preceding :=
        preceding - (table DAYS_IN_MONTH month
                     + (if (month =? 2) && leapyear then 1 else 0)) in
      (year, month, n - preceding + 1)
    else (year, month, n - preceding + 1).

(** [n] written with [width] decimal digits, zero padded. *)
Fixpoint padded (width : nat) (n : Z) : list ascii :=
  match width with
  | O => []
  | S w => padded w (n / 10) ++ [digit_char (n mod 10)]
  end.

(** [date.isoformat()]: ["%04d-%02d-%02d"]. *)
Definition isoformat (d : Z) : string :=
  let '(y, m, dd) := ord2ymd d in
  string_of_chars (padded 4 y ++ "-"%char :: padded 2 m ++ "-"%char :: padded 2 dd).

(** [d - timedelta(days=n)]; a result outside [date.min .. date.max]
    is an [OverflowError]. *)
Definition sub_days (d n : Z) : option Z :=
  if in_range (d - n) then Some (d - n) else None.

(** [(a - b).days] *)
Definition days_between (a b : Z) : Z := a - b.

Definition digit_of (a : ascii) : option Z :=
  let c := Z.of_N (N_of_ascii a) in
  if (48 <=? c) && (c <=? 57) then Some (c - 48) else None.

Fixpoint number_of (l : list ascii) (acc : Z) : option Z :=
  match l with
  | [] => Some acc
  | a :: l' =>
      match digit_of a with
      | Some d => number_of l' (10 * acc + d)
      | None => None
      end
  end.

(** The calendar date written [YYYY-MM-DD], or nothing for any other text. *)
Definition of_iso (s : string) : option Z :=
  match list_ascii_of_string s with
  | [y1; y2; y3; y4; s1; m1; m2; s2; d1; d2] =>
      if negb (Ascii.eqb s1 "-" && Ascii.eqb s2 "-") then None
      else
        match number_of [y1; y2; y3; y4] 0, number_of [m1; m2] 0, number_of [d1; d2] 0 with
        | Some y, Some m, Some d =>
            if (1 <=? y) && (1 <=? m) && (m <=? 12) && (1 <=? d) && (d <=? days_in_month y m)
            then Some (ymd2ord y m d) else None
        | _, _, _ => None
        end
  | _ => None
  end.

End Date.

(** ** The outside world, exceptions and effects *)

(** A Python [str] is the string of its UTF-8 bytes. *)

(** A query parameter value: the script passes strings and one integer. *)
Inductive pval : Type :=
| PStr (s : string)
| PInt (n : Z).

(** The [params] dict, in insertion order. *)
Definition params : Type := list (string * pval).

(** One element of the answer's [data] array: a JSON object whose values
    are strings, as the dataset serves them. *)
Abbreviation row := (gmap string string).

(** The JSON object of a GET answer, restricted to its entries that are
    arrays of records ([data] is the only one the script reads). *)
Abbreviation body := (gmap string (list row)).

(** [requests.Response]: status, raw text, and the decoded JSON when the
    text is JSON. *)
Record Response (J : Type) : Type := {
  status_code : Z;
  text : string;
  json : option J
}.
Arguments status_code {J} _.
Arguments text {J} _.
Arguments json {J} _.

(** [OAuth1(api_key, api_secret, access_token, access_token_secret)];
    the fields hold what [os.getenv] returned. *)
Record OAuth1 : Type := {
  client_key : option string;
  client_secret : option string;
  resource_owner_key : option string;
  resource_owner_secret : option string
}.

(** The text of the [RuntimeError]s the script raises, kept structured. *)
Inductive message : Type :=
| NoDataReturned (p : params)
| StaleData (today_str : string) (days_old : Z)
| MissingCredentials
| PostFailed (status : Z) (resp_text : string).

Inductive exn : Type :=
| SystemExit (code : Z)
| RuntimeError (msg : message)
| KeyError (key : string)
| ValueError (arg : string)
| ParserError (arg : string)
| OverflowError
| RequestException (detail : string)
| HTTPError (status : Z)
| JSONDecodeError.

(** [SystemExit] derives from [BaseException] only: [except Exception]
    lets it through. *)
Definition is_Exception (e : exn) : bool :=
  match e with
  | SystemExit _ => false
  | _ => true
  end.

Inductive stage : Type := Build | Publish.

(** What a run does to the outside, in order. *)
Inductive event : Type :=
| Get (url : string) (p : params)
| Post (url : string) (payload_text : string) (auth : OAuth1)
| Print (line : string)
| PrintResponse (j : string)
| LogError (s : stage) (e : exn).

Inductive result (A : Type) : Type :=
| Ok (a : A)
| Raise (e : exn).
Arguments Ok {A} _.
Arguments Raise {A} _.

(** What a call of [requests] comes back with: a response, or one of the
    library's exceptions (connection error, timeout, ...). *)
Inductive answer (J : Type) : Type :=
| Answered (resp : Response J)
| Failed (detail : string).
Arguments Answered {J} _.
Arguments Failed {J} _.

(** What a run reads from the outside.  The three GET requests of a run
    carry pairwise different parameters, so an answer per request loses
    nothing. *)
Record World : Type := {
  requests_get : string -> params -> answer body;
  requests_post : string -> string -> OAuth1 -> answer string;
  environ : gmap string string;
  date_today : Z;
  (** [float(s)], nothing where Python raises [ValueError] *)
  py_float : string -> option float;
  (** [dateutil.parser.parse(s).date()], nothing where it raises *)
  dateparser_parse : string -> option Z
}.

(** A computation reads the world, appends events and returns or raises. *)
Definition M (A : Type) : Type := World -> list event * result A.

Definition ret {A} (a : A) : M A := fun _ => ([], Ok a).

Definition raise {A} (e : exn) : M A := fun _ => ([], Raise e).

Definition bind {A B} (m : M A) (f : A -> M B) : M B :=
  fun w =>
    match m w with
    | (t, Ok a) => let '(t', r) := f a w in (t ++ t', r)
    | (t, Raise e) => (t, Raise e)
    end.

Declare Scope prog_scope.
Delimit Scope prog_scope with prog.
Bind Scope prog_scope with M.
Notation "x <- m ;; k" := (bind m (fun x => k))
  (at level 20, m at level 99, k at level 200, only parsing) : prog_scope.
Notation "' pat <- m ;; k" := (bind m (fun x => match x with pat => k end))
  (at level 20, pat pattern, m at level 99, k at level 200, only parsing) : prog_scope.
Notation "m ;; k" := (bind m (fun _ => k))
  (at level 100, k at level 200, right associativity, only parsing) : prog_scope.
Local Open Scope prog_scope.

Definition emit (ev : event) : M unit := fun _ => ([ev], Ok tt).

Definition ask {A} (f : World -> A) : M A := fun w => ([], Ok (f w)).

(** [try: m  except Exception as e: h e] *)
Definition try_except {A} (m : M A) (h : exn -> M A) : M A :=
  fun w =>
    match m w with
    | (t, Raise e) =>
        if is_Exception e then let '(t', r) := h e w in (t ++ t', r)
        else (t, Raise e)
    | (t, Ok a) => (t, Ok a)
    end.

Definition of_option {A} (o : option A) (e : exn) : M A :=
  match o with
  | Some a => ret a
  | None => raise e
  end.

(** [print(line)]; the stream is taken to accept every text. *)
Definition print (line : string) : M unit := emit (Print line).

(** [sys.exit(code)] *)
Definition sys_exit {A} (code : Z) : M A := raise (SystemExit code).

(** [os.getenv(name)] *)
Definition getenv (name : string) : M (option string) :=
  ask (fun w => environ w !! name).

(** [os.getenv(name, default)] *)
Definition getenv_default (name dflt : string) : M string :=
  ask (fun w => default dflt (environ w !! name)).

(** [requests.get(url, params=params, ...)]: the call is issued, then the
    world answers or the library raises. *)
Definition received {J} (a : answer J) : result (Response J) :=
  match a with
  | Answered resp => Ok resp
  | Failed detail => Raise (RequestException detail)
  end.

Definition http_get (url : string) (p : params) : M (Response body) :=
  fun w => ([Get url p], received (requests_get w url p)).

(** [requests.post(url, json={"text": text}, auth=auth, ...)] *)
Definition http_post (url text : string) (auth : OAuth1) : M (Response string) :=
  fun w => ([Post url text auth], received (requests_post w url text auth)).

(** [resp.raise_for_status()]: an [HTTPError] for a 4xx or 5xx status. *)
Definition raise_for_status {J} (resp : Response J) : M unit :=
  if (400 <=? status_code resp) && (status_code resp <? 600)
  then raise (HTTPError (status_code resp))
  else ret tt.

(** [resp.json()] *)
Definition resp_json {J} (resp : Response J) : M J :=
  of_option (json resp) JSONDecodeError.

(** [row[key]] *)
Definition getitem (r : row) (key : string) : M string :=
  of_option (r !! key) (KeyError key).

(** The process exit status of a run of the script. *)
Definition exit_code {A} (r : result A) : Z :=
  match r with
  | Ok _ => 0
  | Raise (SystemExit c) => c
  | Raise _ => 1
  end.

(** ** [main.py] *)

Definition LF : string := String "010"%char EmptyString.

Definition BASE_URL : string :=
  "https://api.fiscaldata.treasury.gov/services/api/fiscal_service/v2/accounting/od/debt_to_penny".

Definition MAX_STALE_DAYS : Z := 3.

(** [def _request(params)] *)
Definition _request (p : params) : M row :=
  resp <- http_get BASE_URL p ;;
  raise_for_status resp ;;
  body <- resp_json resp ;;
  let data := default [] (body !! "data") in
  match data with
  | [] => raise (RuntimeError (NoDataReturned p))
  | first :: _ => ret first
  end.

Definition latest_params : params :=
  [("fields", PStr "record_date,tot_pub_debt_out_amt");
   ("sort", PStr "-record_date");
   ("page[size]", PInt 1)].

(** [def fetch_latest_debt_row()] *)
Definition fetch_latest_debt_row : M row := _request latest_params.

Definition on_or_before_params (target_iso_date : string) : params :=
  [("fields", PStr "record_date,tot_pub_debt_out_amt");
   ("filter", PStr ("record_date:lte:" +:+ target_iso_date));
   ("sort", PStr "-record_date");
   ("page[size]", PInt 1)].

(** [def fetch_debt_on_or_before(target_iso_date)] *)
Definition fetch_debt_on_or_before (target_iso_date : string) : M row :=
  _request (on_or_before_params target_iso_date).

(** [def parse_debt(row)] *)
Definition parse_debt (r : row) : M (float * string) :=
  amt_str <- getitem r "tot_pub_debt_out_amt" ;;
  amt <- (fun w => ([], match py_float w amt_str with
                        | Some x => Ok x
                        | None => Raise (ValueError amt_str)
                        end)) ;;
  dstr <- getitem r "record_date" ;;
  ret (amt, dstr).

(** [def build_tweet_text()] *)
Definition build_tweet_text : M string :=
  latest_row <- fetch_latest_debt_row ;;
  '(today_debt, today_str) <- parse_debt latest_row ;;
  today_record_date <-
    (fun w => ([], match dateparser_parse w today_str with
                   | Some d => Ok d
                   | None => Raise (ParserError today_str)
                   end)) ;;
  today <- ask date_today ;;
  let days_old := Date.days_between today today_record_date in
  if MAX_STALE_DAYS <? days_old
  then raise (RuntimeError (StaleData today_str days_old))
  else
    y_target <- of_option (Date.sub_days today_record_date 1) OverflowError ;;
    y_row <- fetch_debt_on_or_before (Date.isoformat y_target) ;;
    '(y_debt, y_str) <- parse_debt y_row ;;
    w_target <- of_option (Date.sub_days today_record_date 7) OverflowError ;;
    w_row <- fetch_debt_on_or_before (Date.isoformat w_target) ;;
    '(w_debt, w_str) <- parse_debt w_row ;;
    let daily_inc := Float.sub today_debt y_debt in
    let weekly_inc := Float.sub today_debt w_debt in
    let tweet :=
    "ðŸ‡ºðŸ‡¸ U.S. Debt Update" +:+ LF +:+ LF
      +:+ "ðŸ’° Today: $" +:+ format_comma_2f today_debt +:+ LF
      +:+ "ðŸ“… Yesterday: $" +:+ format_comma_2f y_debt +:+ LF
      +:+ "ðŸ—“ï¸ 1 Week Ago: $" +:+ format_comma_2f w_debt +:+ LF +:+ LF
      +:+ "ðŸ“ˆ Daily Increase: " +:+ format_billions daily_inc +:+ LF
      +:+ "ðŸ“† Weekly Increase: " +:+ format_billions weekly_inc +:+ LF +:+ LF
      +:+ "#USDebt #DebtCrisis #FiscalReality" in
    ret tweet.

Definition TWEETS_URL : string := "https://api.twitter.com/2/tweets".

(** Truth value of what [os.getenv] returns: [None] and the empty string
    are false. *)
Definition truthy (v : option string) : bool :=
  match v with
  | Some s => negb (String.eqb s EmptyString)
  | None => false
  end.

(** [def post_to_x(text)] *)
Definition post_to_x (tweet : string) : M string :=
  api_key <- getenv "X_API_KEY" ;;
  api_secret <- getenv "X_API_SECRET" ;;
  access_token <- getenv "X_ACCESS_TOKEN" ;;
  access_token_secret <- getenv "X_ACCESS_TOKEN_SECRET" ;;
  if negb (forallb truthy [api_key; api_secret; access_token; access_token_secret])
  then raise (RuntimeError MissingCredentials)
  else
    let auth := {| client_key := api_key;
                   client_secret := api_secret;
                   resource_owner_key := access_token;
                   resource_owner_secret := access_token_secret |} in
    resp <- http_post TWEETS_URL tweet auth ;;
    try_except (raise_for_status resp)
      (fun _ => raise (RuntimeError (PostFailed (status_code resp) (text resp)))) ;;
    resp_json resp.

(** [def main()] *)
Definition main : M unit :=
  tweet <- try_except build_tweet_text
             (fun e => emit (LogError Build e) ;; sys_exit 1) ;;
  print "=== Generated Tweet Preview ===" ;;
  print tweet ;;
  print "================================" ;;
  dry_run <- getenv_default "DRY_RUN" "0" ;;
  if String.eqb dry_run "1"
  then print "[INFO] DRY_RUN=1 â†’ not posting to X."
  else
    resp <- try_except (post_to_x tweet)
              (fun e => emit (LogError Publish e) ;; sys_exit 1) ;;
    print "[INFO] Tweet posted successfully." ;;
    emit (PrintResponse resp).

(** ** A model of the remote dataset API

    The service is not part of the script.  It is modelled as the script
    relies on it: the answer holds the records that match the [lte] filter,
    sorted by descending [record_date] when asked to, cut to the page
    size. *)

Module FiscalData.

Record DebtRecord : Type := {
  record_date : Z;
  tot_pub_debt_out_amt : string
}.

Definition row_of (r : DebtRecord) : row :=
  <["record_date" := Date.isoformat (record_date r)]>
    {["tot_pub_debt_out_amt" := tot_pub_debt_out_amt r]}.

Fixpoint lookup_param (key : string) (p : params) : option pval :=
  match p with
  | [] => None
  | (k, v) :: p' => if String.eqb k key then Some v else lookup_param key p'
  end.

Fixpoint strip_prefix (pre s : string) : option string :=
  match pre, s with
  | EmptyString, _ => Some s
  | String a pre', String b s' =>
      if Ascii.eqb a b then strip_prefix pre' s' else None
  | String _ _, EmptyString => None
  end.

(** The records selected by the [filter] parameter; nothing for a filter
    the model does not understand. *)
Definition select (db : list DebtRecord) (p : params) : option (list DebtRecord) :=
  match lookup_param "filter" p with
  | None => Some db
  | Some (PStr f) =>
      match strip_prefix "record_date:lte:" f with
      | Some target =>
          match Date.of_iso target with
          | Some t => Some (List.filter (fun r => record_date r <=? t) db)
          | None => None
          end
      | None => None
      end
  | Some (PInt _) => None
  end.

Fixpoint insert_desc (r : DebtRecord) (l : list DebtRecord) : list DebtRecord :=
  match l with
  | [] => [r]
  | x :: l' =>
      if record_date x <=? record_date r then r :: l
      else x :: insert_desc r l'
  end.

Definition sort_desc (l : list DebtRecord) : list DebtRecord :=
  fold_right insert_desc [] l.

Definition order (p : params) (l : list DebtRecord) : list DebtRecord :=
  match lookup_param "sort" p with
  | Some (PStr "-record_date") => sort_desc l
  | _ => l
  end.

Definition page (p : params) (l : list DebtRecord) : list DebtRecord :=
  match lookup_param "page[size]" p with
  | Some (PInt n) => take (Z.to_nat n) l
  | _ => take 100 l
  end.

Definition serve (db : list DebtRecord) (url : string) (p : params)
  : answer body :=
  match select db p with
  | Some selected =>
      Answered {| status_code := 200;
            text := EmptyString;
            json := Some {["data" := map row_of (page p (order p selected))]} |}
  | None =>
      Answered {| status_code := 400; text := EmptyString; json := None |}
  end.

End FiscalData.

(** ** Concrete worlds, to run the script on *)

Module Examples.

Import FiscalData.

(** The digits before the first point and those after it. *)
Fixpoint split_point (l : list ascii) : list ascii * list ascii :=
  match l with
  | [] => ([], [])
  | a :: l' =>
      if Ascii.eqb a "." then ([], l')
      else let '(i, f) := split_point l' in (a :: i, f)
  end.

(** Reads [-ddd.ddd]: the digits as an integer, divided by the power of
    ten with the rounding of the binary64 division. *)
Definition float_of_decimal (s : string) : option float :=
  let chars := list_ascii_of_string s in
  let '(neg, chars) :=
    match chars with
    | "-"%char :: rest => (true, rest)
    | _ => (false, chars)
    end in
  let '(int_part, frac_part) := split_point chars in
  match int_part with
  | [] => None
  | _ =>
      match Date.number_of (int_part ++ frac_part) 0 with
      | Some 0 => Some (S754_zero neg)
      | Some (Z.pos n) =>
          Some (Float.div (S754_finite neg n 0)
                  (S754_finite false (Z.to_pos (10 ^ Z.of_nat (length frac_part))) 0))
      | _ => None
      end
  end.

Definition db : list DebtRecord :=
  [ {| record_date := 738883; tot_pub_debt_out_amt := "33911227423659.23" |};
    {| record_date := 738889; tot_pub_debt_out_amt := "34001493655565.48" |};
    {| record_date := 738886; tot_pub_debt_out_amt := "33974462006581.61" |};
    {| record_date := 738890; tot_pub_debt_out_amt := "34006498581824.09" |};
    {| record_date := 738882; tot_pub_debt_out_amt := "33898332127982.79" |} ].

Definition credentials : gmap string string :=
  <["X_API_KEY" := "k"]> (<["X_API_SECRET" := "s"]>
    (<["X_ACCESS_TOKEN" := "t"]> {["X_ACCESS_TOKEN_SECRET" := "ts"]})).

Definition created : Response string :=
  {| status_code := 201; text := "{}"; json := Some "{}"%string |}.

(** The dataset above, the run on 2024-01-06, every credential set. *)
Definition world : World :=
  {| requests_get := serve db;
     requests_post := fun _ _ _ => Answered created;
     environ := credentials;
     date_today := 738891;
     py_float := float_of_decimal;
     dateparser_parse := Date.of_iso |}.

(** The same run with [DRY_RUN=1]. *)
Definition dry_world : World :=
  {| requests_get := serve db;
     requests_post := fun _ _ _ => Answered created;
     environ := <["DRY_RUN" := "1"]> credentials;
     date_today := 738891;
     py_float := float_of_decimal;
     dateparser_parse := Date.of_iso |}.

(** [DRY_RUN=1] while the dataset answers with no rows. *)
Definition dry_outage_world : World :=
  {| requests_get := serve [];
     requests_post := fun _ _ _ => Answered created;
     environ := <["DRY_RUN" := "1"]> credentials;
     date_today := 738891;
     py_float := float_of_decimal;
     dateparser_parse := Date.of_iso |}.

(** [DRY_RUN=true]: not a dry run. *)
Definition true_world : World :=
  {| requests_get := serve db;
     requests_post := fun _ _ _ => Answered created;
     environ := <["DRY_RUN" := "true"]> credentials;
     date_today := 738891;
     py_float := float_of_decimal;
     dateparser_parse := Date.of_iso |}.

(** [X_API_SECRET] is not set. *)
Definition no_secret_world : World :=
  {| requests_get := serve db;
     requests_post := fun _ _ _ => Answered created;
     environ := delete "X_API_SECRET" credentials;
     date_today := 738891;
     py_float := float_of_decimal;
     dateparser_parse := Date.of_iso |}.

(** The posting service answers 403. *)
Definition forbidden_world : World :=
  {| requests_get := serve db;
     requests_post := fun _ _ _ =>
       Answered {| status_code := 403; text := "Forbidden"; json := None |};
     environ := credentials;
     date_today := 738891;
     py_float := float_of_decimal;
     dateparser_parse := Date.of_iso |}.

(** The run three days after the latest record. *)
Definition three_days_later : World :=
  {| requests_get := serve db;
     requests_post := fun _ _ _ => Answered created;
     environ := credentials;
     date_today := 738893;
     py_float := float_of_decimal;
     dateparser_parse := Date.of_iso |}.

(** The run four days after the latest record. *)
Definition four_days_later : World :=
  {| requests_get := serve db;
     requests_post := fun _ _ _ => Answered created;
     environ := credentials;
     date_today := 738894;
     py_float := float_of_decimal;
     dateparser_parse := Date.of_iso |}.

(** The latest record carries no amount: the dataset writes [null]. *)
Definition db_null : list DebtRecord :=
  {| record_date := 738891; tot_pub_debt_out_amt := "null" |} :: db.

Definition null_world : World :=
  {| requests_get := serve db_null;
     requests_post := fun _ _ _ => Answered created;
     environ := credentials;
     date_today := 738891;
     py_float := float_of_decimal;
     dateparser_parse := Date.of_iso |}.

(** The row of the latest record of [db]. *)
Definition latest_row : row :=
  row_of {| record_date := 738890; tot_pub_debt_out_amt := "34006498581824.09" |}.

(** [X_ACCESS_TOKEN] is set, but empty. *)
Definition empty_token_world : World :=
  {| requests_get := serve db;
     requests_post := fun _ _ _ => Answered created;
     environ := <["X_ACCESS_TOKEN" := EmptyString]> credentials;
     date_today := 738891;
     py_float := float_of_decimal;
     dateparser_parse := Date.of_iso |}.

(** A dry run with no credential at all and a posting service that is
    down. *)
Definition bare_dry_world : World :=
  {| requests_get := serve db;
     requests_post := fun _ _ _ => Failed "connection refused";
     environ := {["DRY_RUN" := "1"%string]};
     date_today := 738891;
     py_float := float_of_decimal;
     dateparser_parse := Date.of_iso |}.

(** The three amounts that the runs on [db] parse. *)
Definition today_debt : float :=
  Eval vm_compute in default Float.zero (float_of_decimal "34006498581824.09").
Definition y_debt : float :=
  Eval vm_compute in default Float.zero (float_of_decimal "34001493655565.48").
Definition w_debt : float :=
  Eval vm_compute in default Float.zero (float_of_decimal "33911227423659.23").

End Examples.

(** * The vocabulary of the properties *)

(** ** Outcomes and the shape of the runs *)

Definition raises {A} (x : list event * result A) : Prop :=
  exists e, snd x = Raise e.

Definition returns {A} (x : list event * result A) : Prop :=
  exists a, snd x = Ok a.

(** The three GET requests of a run whose latest record is dated [d]. *)
Definition get_latest : event := Get BASE_URL latest_params.

Definition get_on_or_before (target : Z) : event :=
  Get BASE_URL (on_or_before_params (Date.isoformat target)).

(** The text that [build_tweet_text] assembles from three amounts and two
    deltas. *)
Definition tweet_of (today_debt y_debt w_debt daily_inc weekly_inc : float) : string :=
  "ðŸ‡ºðŸ‡¸ U.S. Debt Update" +:+ LF +:+ LF
  +:+ "ðŸ’° Today: $" +:+ format_comma_2f today_debt +:+ LF
  +:+ "ðŸ“… Yesterday: $" +:+ format_comma_2f y_debt +:+ LF
  +:+ "ðŸ—“ï¸ 1 Week Ago: $" +:+ format_comma_2f w_debt +:+ LF +:+ LF
  +:+ "ðŸ“ˆ Daily Increase: " +:+ format_billions daily_inc +:+ LF
  +:+ "ðŸ“† Weekly Increase: " +:+ format_billions weekly_inc +:+ LF +:+ LF
  +:+ "#USDebt #DebtCrisis #FiscalReality".

(** The second half of [build_tweet_text], after the staleness guard. *)
Definition after_guard (w : World) (today_debt : float) (d : Z)
  : list event * result string :=
  match Date.sub_days d 1 with
  | None => ([], Raise OverflowError)
  | Some yt =>
      match snd (fetch_debt_on_or_before (Date.isoformat yt) w) with
      | Raise e => ([get_on_or_before yt], Raise e)
      | Ok y_row =>
          match snd (parse_debt y_row w) with
          | Raise e => ([get_on_or_before yt], Raise e)
          | Ok (y_debt, _) =>
              match Date.sub_days d 7 with
              | None => ([get_on_or_before yt], Raise OverflowError)
              | Some wt =>
                  match snd (fetch_debt_on_or_before (Date.isoformat wt) w) with
                  | Raise e => ([get_on_or_before yt; get_on_or_before wt], Raise e)
                  | Ok w_row =>
                      match snd (parse_debt w_row w) with
                      | Raise e => ([get_on_or_before yt; get_on_or_before wt], Raise e)
                      | Ok (w_debt, _) =>
                          ([get_on_or_before yt; get_on_or_before wt],
                           Ok (tweet_of today_debt y_debt w_debt
                                 (Float.sub today_debt y_debt)
                                 (Float.sub today_debt w_debt)))
                      end
                  end
              end
          end
      end
  end.

(** ** Credentials, dry runs and the last step of [main] *)

(** The credentials as [post_to_x] reads them. *)
Definition CREDENTIALS : list string :=
  ["X_API_KEY"; "X_API_SECRET"; "X_ACCESS_TOKEN"; "X_ACCESS_TOKEN_SECRET"].

Definition auth_of (w : World) : OAuth1 :=
  {| client_key := environ w !! "X_API_KEY";
     client_secret := environ w !! "X_API_SECRET";
     resource_owner_key := environ w !! "X_ACCESS_TOKEN";
     resource_owner_secret := environ w !! "X_ACCESS_TOKEN_SECRET" |}.

Definition credentials_present (w : World) : bool :=
  forallb (fun k => truthy (environ w !! k)) CREDENTIALS.

Definition DRY_RUN_NOTICE : string := "[INFO] DRY_RUN=1 â†’ not posting to X.".

Definition preview (tweet : string) : list event :=
  [Print "=== Generated Tweet Preview ===";
   Print tweet;
   Print "================================"].

(** Whether the run is a dry run, as [main] decides it. *)
Definition dry_run_enabled (w : World) : bool :=
  String.eqb (default "0"%string (environ w !! "DRY_RUN")) "1".

(** The last step of [main]: the real post. *)
Definition publish_path (tweet : string) (w : World) : list event * result unit :=
  match post_to_x tweet w with
  | (t, Ok resp) =>
      (t ++ [Print "[INFO] Tweet posted successfully."; PrintResponse resp], Ok tt)
  | (t, Raise e) => (t ++ [LogError Publish e], Raise (SystemExit 1))
  end.

(** ** Network calls *)

Definition is_network_call (ev : event) : bool :=
  match ev with
  | Get _ _ | Post _ _ _ => true
  | _ => false
  end.

Definition network_calls (t : list event) : list event :=
  List.filter is_network_call t.

(** The calls a complete run makes, in order, when the latest record is
    dated [d]. *)
Definition planned_calls (d : Z) (tweet : string) (auth : OAuth1) : list event :=
  [get_latest; get_on_or_before (d - 1); get_on_or_before (d - 7);
   Post TWEETS_URL tweet auth].

Definition posts (t : list event) : Prop :=
  exists url payload auth, In (Post url payload auth) t.

(** The claim about dry runs as the specification words it: whenever the
    flag is set, nothing is posted, the preview is printed and the run
    ends with status 0. *)
Definition dry_run_always_succeeds (w : World) : Prop :=
  environ w !! "DRY_RUN" = Some "1"%string ->
  ~ posts (fst (main w))
  /\ In (Print "=== Generated Tweet Preview ===") (fst (main w))
  /\ exit_code (snd (main w)) = 0.

(** ** Successful fetches *)

(** The three fetches of a run succeed and their rows parse: the latest
    row gives [today_debt] and a date [d]; one and seven days before [d]
    are dates, and the rows on or before them give [y_debt] and [w_debt]. *)
Definition fetched (w : World) (d : Z) (today_debt y_debt w_debt : float) : Prop :=
  exists latest_row today_str y_row y_str w_row w_str,
    snd (fetch_latest_debt_row w) = Ok latest_row
    /\ snd (parse_debt latest_row w) = Ok (today_debt, today_str)
    /\ dateparser_parse w today_str = Some d
    /\ Date.in_range (d - 1) = true
    /\ snd (fetch_debt_on_or_before (Date.isoformat (d - 1)) w) = Ok y_row
    /\ snd (parse_debt y_row w) = Ok (y_debt, y_str)
    /\ Date.in_range (d - 7) = true
    /\ snd (fetch_debt_on_or_before (Date.isoformat (d - 7)) w) = Ok w_row
    /\ snd (parse_debt w_row w) = Ok (w_debt, w_str).

(** The fetches return a row each and the latest row is dated [d]; nothing
    is said of the amounts. *)
Definition rows_fetched (w : World) (d : Z) : Prop :=
  exists latest_row today_str y_row w_row,
    snd (fetch_latest_debt_row w) = Ok latest_row
    /\ latest_row !! "record_date" = Some today_str
    /\ dateparser_parse w today_str = Some d
    /\ Date.in_range (d - 1) = true
    /\ snd (fetch_debt_on_or_before (Date.isoformat (d - 1)) w) = Ok y_row
    /\ Date.in_range (d - 7) = true
    /\ snd (fetch_debt_on_or_before (Date.isoformat (d - 7)) w) = Ok w_row.

(** The claim about the staleness guard as the specification words it: with
    the three fetches successful, the build fails exactly when the latest
    record is more than [MAX_STALE_DAYS] days old. *)
Definition fails_exactly_when_stale (w : World) (d : Z) : Prop :=
  rows_fetched w d ->
  (raises (build_tweet_text w) <-> MAX_STALE_DAYS < date_today w - d).

(** The same world on another day. *)
Definition at_date (w : World) (today : Z) : World :=
  {| requests_get := requests_get w;
     requests_post := requests_post w;
     environ := environ w;
     date_today := today;
     py_float := py_float w;
     dateparser_parse := dateparser_parse w |}.

(** [needle] occurs in [hay]. *)
Definition contains (needle hay : string) : Prop :=
  exists before after, hay = before +:+ needle +:+ after.

(** ** The dataset *)

Import FiscalData.

(** [r] is the most recent record of [db] dated [t] or before. *)
Definition most_recent_on_or_before (db : list DebtRecord) (t : Z) (r : DebtRecord) : Prop :=
  In r db
  /\ record_date r <= t
  /\ forall r', In r' db -> record_date r' <= t -> record_date r' <= record_date r.

(** [r] is the most recent record of [db]. *)
Definition most_recent (db : list DebtRecord) (r : DebtRecord) : Prop :=
  In r db /\ forall r', In r' db -> record_date r' <= record_date r.

(** The remote call errors or returns no rows. *)
Definition no_rows (a : answer body) : Prop :=
  match a with
  | Failed _ => True
  | Answered resp =>
      400 <= status_code resp < 600
      \/ json resp = None
      \/ exists b, json resp = Some b /\ default [] (b !! "data") = []
  end.

(** Later records first. *)
Definition later_first (a b : DebtRecord) : Prop := record_date b <= record_date a.

Definition answer_with (rows : list row) : answer body :=
  Answered {| status_code := 200;
              text := EmptyString;
              json := Some {["data" := rows]} |}.

(** ** How a rendered number is read back *)

Definition is_digit (a : ascii) : bool :=
  (48 <=? Z.of_N (N_of_ascii a)) && (Z.of_N (N_of_ascii a) <=? 57).

Definition digit_value (a : ascii) : Z := Z.of_N (N_of_ascii a) - 48.

Definition is_comma (a : ascii) : bool := Ascii.eqb a ",".

(** The number that a string of digits and commas writes, most significant
    digit first; the commas do not count. *)
Definition decimal_value (s : string) : Z :=
  fold_left (fun acc a => if is_comma a then acc else 10 * acc + digit_value a)
    (list_ascii_of_string s) 0.

(** Read from the units: groups of three digits, a comma after each group
    but the last, and a last group of one to three digits. *)
Fixpoint grouped_from_units (l : list ascii) : bool :=
  match l with
  | [] => false
  | [a] => is_digit a
  | [a; b] => is_digit a && is_digit b
  | [a; b; c] => is_digit a && is_digit b && is_digit c
  | a :: b :: c :: sep :: rest =>
      is_digit a && is_digit b && is_digit c && is_comma sep && grouped_from_units rest
  end.

Definition thousands_separated (s : string) : bool :=
  grouped_from_units (rev (list_ascii_of_string s)).

(** [c] is the integer nearest to [100 * |x|], the even one on a tie. *)
Definition nearest_hundredths (x : float) (c : Z) : Prop :=
  2 * Z.abs (c * abs_den x - 100 * abs_num x) <= abs_den x
  /\ (2 * Z.abs (c * abs_den x - 100 * abs_num x) = abs_den x -> Z.even c = true).

(** The text is the rendering of [delta] that the specification describes:
    the sign, a dollar, [|delta| / 10^9] with thousands separators and two
    decimals, and the suffix. *)
Definition billions_rendering (delta : float) (s : string) : Prop :=
  exists int_part d1 d2,
    s = String (if Float.geb delta Float.zero then "+"%char else "-"%char)
          ("$" +:+ int_part +:+ "." +:+ String d1 (String d2 " B"))
    /\ thousands_separated int_part = true
    /\ is_digit d1 = true
    /\ is_digit d2 = true
    /\ nearest_hundredths (Float.abs (billions delta))
         (100 * decimal_value int_part + 10 * digit_value d1 + digit_value d2).

(** The value of digits and commas, least significant first. *)
Definition value_from_units (l : list ascii) : Z :=
  fold_right (fun a acc => if is_comma a then acc else 10 * acc + digit_value a) 0 l.

(** The mantissa of [one_billion]. *)
Definition one_billion_mantissa : positive := 8388608000000000.

(** ** More vocabulary *)

(** The worlds agree on all that the fetches and the build read. *)
Definition same_data_source (w w' : World) : Prop :=
  requests_get w' = requests_get w
  /\ date_today w' = date_today w
  /\ py_float w' = py_float w
  /\ dateparser_parse w' = dateparser_parse w.

Definition SUCCESS_NOTICE : string := "[INFO] Tweet posted successfully.".

(** Every event of the trace is a GET. *)
Definition only_gets (t : list event) : Prop :=
  Forall (fun ev => exists url p, ev = Get url p) t.

(** The text is the rendering of an amount: an optional minus, the integer
    part with thousands separators, a point and two decimals, the whole
    being [x] rounded to the nearest hundredth. *)
Definition amount_rendering (x : float) (s : string) : Prop :=
  exists int_part d1 d2,
    s = sign_prefix (sign_bit x) +:+ int_part +:+ "." +:+ String d1 (String d2 EmptyString)
    /\ thousands_separated int_part = true
    /\ is_digit d1 = true
    /\ is_digit d2 = true
    /\ nearest_hundredths x
         (100 * decimal_value int_part + 10 * digit_value d1 + digit_value d2).

(** The sign character of [format_billions]. *)
Definition sign_char (delta : float) : ascii :=
  if Float.geb delta Float.zero then "+"%char else "-"%char.

(** ** The calendar, for the round trip of a date *)

(** Month and day of the [n]-th day (from 0) of a year, as [ord2ymd]
    finds them. *)
Definition month_day (n : Z) (leapyear : bool) : Z * Z :=
  let month := Z.shiftr (n + 50) 5 in
  let preceding :=
    Date.table Date.DAYS_BEFORE_MONTH month + (if (2 <? month) && leapyear then 1 else 0) in
  if n <? preceding then
    let month := month - 1 in
    let preceding :=
      preceding - (Date.table Date.DAYS_IN_MONTH month
                   + (if (month =? 2) && leapyear then 1 else 0)) in
    (month, n - preceding + 1)
  else (month, n - preceding + 1).

Definition month_day_ok (n : Z) (leapyear : bool) : bool :=
  let '(m, dd) := month_day n leapyear in
  (1 <=? m) && (m <=? 12) && (1 <=? dd)
  && (dd <=? Date.table Date.DAYS_IN_MONTH m + (if (m =? 2) && leapyear then 1 else 0))
  && (Date.table Date.DAYS_BEFORE_MONTH m + (if (2 <? m) && leapyear then 1 else 0) + dd
      =? n + 1).

(** * Properties *)

(** ** How the runs unfold *)

Lemma raises_not_returns {A} (x : list event * result A) :
  raises x <-> ~ returns x.
Proof.
  destruct x as [t [a | e]]; unfold raises, returns; simpl; split.
  - intros [e He]. discriminate.
  - intros H. exfalso. apply H. eauto.
  - intros _ [a Ha]. discriminate.
  - eauto.
Qed.

Lemma bind_Ok {A B} (m : M A) (f : A -> M B) w t a :
  m w = (t, Ok a) -> bind m f w = (t ++ fst (f a w), snd (f a w)).
Proof. unfold bind. intros ->. destruct (f a w). reflexivity. Qed.

Lemma bind_Raise {A B} (m : M A) (f : A -> M B) w t e :
  m w = (t, Raise e) -> bind m f w = (t, Raise e).
Proof. unfold bind. intros ->. reflexivity. Qed.

(** [_request] issues exactly one GET, whatever the answer. *)
Lemma request_trace p w : fst (_request p w) = [Get BASE_URL p].
Proof.
  unfold _request, bind, http_get, raise_for_status, resp_json, of_option.
  destruct (requests_get w BASE_URL p) as [resp | e]; [| reflexivity]. simpl.
  destruct ((400 <=? status_code resp) && (status_code resp <? 600)); [reflexivity |].
  simpl. destruct (json resp) as [b |]; [| reflexivity].
  simpl. destruct (default [] (b !! "data")); reflexivity.
Qed.

(** What [_request] returns, by cases on the answer. *)
Lemma request_result p w :
  snd (_request p w) =
  match requests_get w BASE_URL p with
  | Failed detail => Raise (RequestException detail)
  | Answered resp =>
      if (400 <=? status_code resp) && (status_code resp <? 600)
      then Raise (HTTPError (status_code resp))
      else match json resp with
           | None => Raise JSONDecodeError
           | Some b =>
               match default [] (b !! "data") with
               | [] => Raise (RuntimeError (NoDataReturned p))
               | first :: _ => Ok first
               end
           end
  end.
Proof.
  unfold _request, bind, http_get, raise_for_status, resp_json, of_option.
  destruct (requests_get w BASE_URL p) as [resp | e]; [| reflexivity]. simpl.
  destruct ((400 <=? status_code resp) && (status_code resp <? 600)); [reflexivity |].
  simpl. destruct (json resp) as [b |]; [| reflexivity].
  simpl. destruct (default [] (b !! "data")); reflexivity.
Qed.

Lemma request_eq p w : _request p w = ([Get BASE_URL p], snd (_request p w)).
Proof. rewrite <- (request_trace p w). destruct (_request p w); reflexivity. Qed.

(** [parse_debt] has no effect on the outside. *)
Lemma parse_debt_trace r w : fst (parse_debt r w) = [].
Proof.
  unfold parse_debt, bind, getitem, of_option.
  destruct (r !! "tot_pub_debt_out_amt") as [a |]; [| reflexivity]. simpl.
  destruct (py_float w a); [| reflexivity].
  destruct (r !! "record_date"); reflexivity.
Qed.

Lemma parse_debt_eq r w : parse_debt r w = ([], snd (parse_debt r w)).
Proof. rewrite <- (parse_debt_trace r w). destruct (parse_debt r w); reflexivity. Qed.

(** Nothing below [main] raises [SystemExit]. *)
Lemma request_Exception p w e :
  snd (_request p w) = Raise e -> is_Exception e = true.
Proof.
  rewrite request_result.
  destruct (requests_get w BASE_URL p) as [resp | e']; [| by intros [= <-]].
  destruct ((400 <=? status_code resp) && (status_code resp <? 600)).
  { by intros [= <-]. }
  destruct (json resp) as [b |]; [| by intros [= <-]].
  destruct (default [] (b !! "data")); [by intros [= <-] | discriminate].
Qed.

Lemma parse_debt_Exception r w e :
  snd (parse_debt r w) = Raise e -> is_Exception e = true.
Proof.
  unfold parse_debt, bind, getitem, of_option.
  destruct (r !! "tot_pub_debt_out_amt") as [a |]; [| by intros [= <-]]. simpl.
  destruct (py_float w a); [| by intros [= <-]].
  destruct (r !! "record_date"); [discriminate | by intros [= <-]].
Qed.

Ltac step_request p w :=
  let t := fresh "t" in
  let H := fresh "H" in
  pose proof (request_trace p w) as H;
  destruct (_request p w) as [t r]; simpl in H; subst t; simpl.

Ltac step_parse r0 w :=
  let t := fresh "t" in
  let H := fresh "H" in
  pose proof (parse_debt_trace r0 w) as H;
  destruct (parse_debt r0 w) as [t r]; simpl in H; subst t; simpl.

(** [build_tweet_text], case by case. *)
Lemma build_unfold w :
  build_tweet_text w =
  match snd (fetch_latest_debt_row w) with
  | Raise e => ([get_latest], Raise e)
  | Ok latest_row =>
      match snd (parse_debt latest_row w) with
      | Raise e => ([get_latest], Raise e)
      | Ok (today_debt, today_str) =>
          match dateparser_parse w today_str with
          | None => ([get_latest], Raise (ParserError today_str))
          | Some d =>
              if MAX_STALE_DAYS <? date_today w - d
              then ([get_latest],
                    Raise (RuntimeError (StaleData today_str (date_today w - d))))
              else (get_latest :: fst (after_guard w today_debt d),
                    snd (after_guard w today_debt d))
          end
      end
  end.
Proof.
  unfold build_tweet_text, fetch_latest_debt_row, bind at 1.
  step_request latest_params w.
  destruct r as [r0 | e]; [| reflexivity].
  unfold bind at 1. step_parse r0 w.
  destruct r as [[today_debt today_str] | e]; [| reflexivity].
  unfold bind at 1.
  destruct (dateparser_parse w today_str) as [d |]; [| reflexivity].
  unfold bind at 1, ask, Date.days_between. simpl.
  destruct (MAX_STALE_DAYS <? date_today w - d); [reflexivity |].
  unfold after_guard, fetch_debt_on_or_before, get_latest, get_on_or_before.
  unfold bind at 1, of_option.
  destruct (Date.sub_days d 1) as [yt |]; [| reflexivity]. simpl.
  unfold bind at 1. step_request (on_or_before_params (Date.isoformat yt)) w.
  destruct r as [r1 | e]; [| reflexivity].
  unfold bind at 1. step_parse r1 w.
  destruct r as [[y_debt y_str] | e]; [| reflexivity].
  unfold bind at 1.
  destruct (Date.sub_days d 7) as [wt |]; [| reflexivity]. simpl.
  unfold bind at 1. step_request (on_or_before_params (Date.isoformat wt)) w.
  destruct r as [r2 | e]; [| reflexivity].
  unfold bind at 1. step_parse r2 w.
  destruct r as [[w_debt w_str] | e]; reflexivity.
Qed.

Lemma after_guard_Exception w a d e :
  snd (after_guard w a d) = Raise e -> is_Exception e = true.
Proof.
  unfold after_guard, fetch_debt_on_or_before.
  destruct (Date.sub_days d 1) as [yt |]; [| by intros [= <-]].
  destruct (snd (_request (on_or_before_params (Date.isoformat yt)) w))
    as [r1 | e1] eqn:E1.
  2: { intros [= ?]; subst. by eapply request_Exception. }
  destruct (snd (parse_debt r1 w)) as [[y_debt y_str] | e2] eqn:E2.
  2: { intros [= ?]; subst. by eapply parse_debt_Exception. }
  destruct (Date.sub_days d 7) as [wt |]; [| by intros [= <-]].
  destruct (snd (_request (on_or_before_params (Date.isoformat wt)) w))
    as [r2 | e3] eqn:E3.
  2: { intros [= ?]; subst. by eapply request_Exception. }
  destruct (snd (parse_debt r2 w)) as [[w_debt w_str] | e4] eqn:E4.
  - discriminate.
  - intros [= ?]; subst. by eapply parse_debt_Exception.
Qed.

Lemma build_Exception w e :
  snd (build_tweet_text w) = Raise e -> is_Exception e = true.
Proof.
  rewrite build_unfold. unfold fetch_latest_debt_row.
  destruct (snd (_request _ w)) as [r0 | e0] eqn:E0;
    [| intros [= <-]; by eapply request_Exception].
  destruct (snd (parse_debt r0 w)) as [[today_debt today_str] | e1] eqn:E1;
    [| intros [= <-]; by eapply parse_debt_Exception].
  destruct (dateparser_parse w today_str) as [d |]; [| by intros [= <-]].
  destruct (MAX_STALE_DAYS <? date_today w - d); [by intros [= <-] |].
  simpl. apply after_guard_Exception.
Qed.

(** [post_to_x], case by case. *)
Lemma post_unfold tweet w :
  post_to_x tweet w =
  if credentials_present w
  then ([Post TWEETS_URL tweet (auth_of w)],
        match requests_post w TWEETS_URL tweet (auth_of w) with
        | Failed detail => Raise (RequestException detail)
        | Answered resp =>
            if (400 <=? status_code resp) && (status_code resp <? 600)
            then Raise (RuntimeError (PostFailed (status_code resp) (text resp)))
            else match json resp with
                 | Some j => Ok j
                 | None => Raise JSONDecodeError
                 end
        end)
  else ([], Raise (RuntimeError MissingCredentials)).
Proof.
  unfold post_to_x, credentials_present, CREDENTIALS, bind, getenv, ask.
  cbn [forallb].
  fold (auth_of w).
  destruct (truthy (environ w !! "X_API_KEY") && _); [| reflexivity].
  cbn [negb]. unfold http_post.
  destruct (requests_post w TWEETS_URL tweet (auth_of w)) as [resp | detail];
    [| reflexivity].
  cbn [received]. unfold try_except, raise_for_status.
  destruct ((400 <=? status_code resp) && (status_code resp <? 600)).
  - reflexivity.
  - unfold resp_json, of_option. destruct (json resp); reflexivity.
Qed.

Lemma post_Exception tweet w e :
  snd (post_to_x tweet w) = Raise e -> is_Exception e = true.
Proof.
  rewrite post_unfold.
  destruct (credentials_present w); [| by intros [= <-]]. simpl.
  destruct (requests_post _ _ _ _) as [resp | detail]; [| by intros [= <-]].
  destruct ((400 <=? status_code resp) && (status_code resp <? 600));
    [by intros [= <-] |].
  destruct (json resp); [discriminate | by intros [= <-]].
Qed.

(** [main], case by case. *)
Lemma main_unfold w :
  main w =
  match build_tweet_text w with
  | (t, Raise e) => (t ++ [LogError Build e], Raise (SystemExit 1))
  | (t, Ok tweet) =>
      if dry_run_enabled w
      then (t ++ preview tweet ++ [Print DRY_RUN_NOTICE], Ok tt)
      else (t ++ preview tweet ++ fst (publish_path tweet w),
            snd (publish_path tweet w))
  end.
Proof.
  unfold main. unfold bind at 1. unfold try_except at 1.
  pose proof (build_Exception w) as Hb.
  destruct (build_tweet_text w) as [t [tweet | e]]; simpl in Hb.
  2: { rewrite (Hb e eq_refl). reflexivity. }
  unfold print, emit, getenv_default, ask, bind at 1 2 3 4. simpl.
  unfold dry_run_enabled.
  destruct (String.eqb (default "0"%string (environ w !! "DRY_RUN")) "1").
  { unfold preview, DRY_RUN_NOTICE. simpl. reflexivity. }
  unfold bind, try_except, publish_path, sys_exit, raise.
  pose proof (post_Exception tweet w) as Hp.
  destruct (post_to_x tweet w) as [t2 [resp | e]]; simpl in Hp.
  - simpl. unfold preview. reflexivity.
  - rewrite (Hp e eq_refl). simpl. unfold preview. reflexivity.
Qed.

(** ** The network calls of a run *)

Lemma sub_days_Some d n t : Date.sub_days d n = Some t -> t = d - n.
Proof. unfold Date.sub_days. destruct (Date.in_range (d - n)); congruence. Qed.

Lemma after_guard_calls w a d :
  exists n, (n <= 2)%nat /\
    fst (after_guard w a d) = take n [get_on_or_before (d - 1); get_on_or_before (d - 7)] /\
    (returns (after_guard w a d) -> n = 2%nat).
Proof.
  unfold after_guard, returns.
  destruct (Date.sub_days d 1) as [yt |] eqn:Hy.
  2: { exists 0%nat. simpl. split; [lia |]. split; [done |]. by intros [? ?]. }
  apply sub_days_Some in Hy. subst yt.
  destruct (snd (fetch_debt_on_or_before _ w)) as [r1 | e1].
  2: { exists 1%nat. simpl. split; [lia |]. split; [done |]. by intros [? ?]. }
  destruct (snd (parse_debt r1 w)) as [[y_debt y_str] | e2].
  2: { exists 1%nat. simpl. split; [lia |]. split; [done |]. by intros [? ?]. }
  destruct (Date.sub_days d 7) as [wt |] eqn:Hw.
  2: { exists 1%nat. simpl. split; [lia |]. split; [done |]. by intros [? ?]. }
  apply sub_days_Some in Hw. subst wt.
  exists 2%nat. split; [lia |].
  destruct (snd (fetch_debt_on_or_before _ w)) as [r2 | e3]; [| done].
  destruct (snd (parse_debt r2 w)) as [[w_debt w_str] | e4]; done.
Qed.

(** The GET requests of [build_tweet_text]: the first, the first two or all
    three of the planned ones, and all three when it returns. *)
Lemma build_calls w :
  exists d n, (1 <= n <= 3)%nat /\
    fst (build_tweet_text w) =
      take n [get_latest; get_on_or_before (d - 1); get_on_or_before (d - 7)] /\
    (returns (build_tweet_text w) -> n = 3%nat).
Proof.
  rewrite build_unfold. unfold returns.
  destruct (snd (fetch_latest_debt_row w)) as [r0 | e0].
  2: { exists 0, 1%nat. simpl. split; [lia |]. split; [done |]. by intros [? ?]. }
  destruct (snd (parse_debt r0 w)) as [[today_debt today_str] | e1].
  2: { exists 0, 1%nat. simpl. split; [lia |]. split; [done |]. by intros [? ?]. }
  destruct (dateparser_parse w today_str) as [d |].
  2: { exists 0, 1%nat. simpl. split; [lia |]. split; [done |]. by intros [? ?]. }
  destruct (MAX_STALE_DAYS <? date_today w - d).
  { exists d, 1%nat. simpl. split; [lia |]. split; [done |]. by intros [? ?]. }
  destruct (after_guard_calls w today_debt d) as (n & Hn & Ht & Hr).
  exists d, (S n). split; [lia |]. simpl. rewrite Ht. split; [done |].
  intros H. f_equal. apply Hr. exact H.
Qed.

Lemma network_calls_app t1 t2 :
  network_calls (t1 ++ t2) = network_calls t1 ++ network_calls t2.
Proof. apply List.filter_app. Qed.

Lemma network_calls_take_gets n d :
  network_calls (take n [get_latest; get_on_or_before (d - 1); get_on_or_before (d - 7)])
  = take n [get_latest; get_on_or_before (d - 1); get_on_or_before (d - 7)].
Proof. destruct n as [| [| [| [| n]]]]; reflexivity. Qed.

(** The network calls of [post_to_x]: none, or the one POST. *)
Lemma post_calls tweet w :
  fst (post_to_x tweet w) = [] /\ raises (post_to_x tweet w) \/
  fst (post_to_x tweet w) = [Post TWEETS_URL tweet (auth_of w)].
Proof.
  rewrite post_unfold. destruct (credentials_present w).
  - by right.
  - left. split; [done |]. by eexists.
Qed.

Lemma publish_path_calls tweet w :
  network_calls (fst (publish_path tweet w)) = fst (post_to_x tweet w).
Proof.
  unfold publish_path.
  destruct (post_calls tweet w) as [[Ht _] | Ht];
    destruct (post_to_x tweet w) as [t [resp | e]]; simpl in Ht; subst t; reflexivity.
Qed.

(** The network calls of a whole run, from those of its two stages. *)
Lemma main_calls w :
  network_calls (fst (main w)) =
  match build_tweet_text w with
  | (t, Raise _) => t
  | (t, Ok tweet) =>
      if dry_run_enabled w then t else t ++ fst (post_to_x tweet w)
  end.
Proof.
  rewrite main_unfold.
  destruct (build_calls w) as (d & n & Hn & Ht & _).
  destruct (build_tweet_text w) as [t [tweet | e]]; simpl in Ht; subst t.
  - destruct (dry_run_enabled w); simpl fst.
    + rewrite !network_calls_app, network_calls_take_gets. simpl. by rewrite app_nil_r.
    + rewrite !network_calls_app, network_calls_take_gets.
      f_equal. change (network_calls (fst (publish_path tweet w)) = fst (post_to_x tweet w)).
      apply publish_path_calls.
  - simpl fst. rewrite network_calls_app, network_calls_take_gets. simpl.
    by rewrite app_nil_r.
Qed.

Lemma at_most_four_calls_prefix (w : World) :
  exists d tweet auth n,
    (1 <= n <= 4)%nat /\
    network_calls (fst (main w)) = take n (planned_calls d tweet auth).
Proof.
  rewrite main_calls.
  destruct (build_calls w) as (d & n & Hn & Ht & Hr).
  destruct (build_tweet_text w) as [t [tweet | e]]; simpl in Ht; subst t.
  - assert (n = 3%nat) as -> by (apply Hr; by eexists).
    destruct (dry_run_enabled w).
    + exists d, tweet, (auth_of w), 3%nat. split; [lia | reflexivity].
    + destruct (post_calls tweet w) as [[Hp _] | Hp]; rewrite Hp.
      * exists d, tweet, (auth_of w), 3%nat. split; [lia | reflexivity].
      * exists d, tweet, (auth_of w), 4%nat. split; [lia | reflexivity].
  - exists d, EmptyString, (auth_of w), n. split; [lia |].
    unfold planned_calls. destruct n as [| [| [| [| n]]]]; try reflexivity; lia.
Qed.

(** C8. Every run makes at most four network calls, in this order: the GET
    for the latest record, the GET for the record on or before the day
    before it, the GET for the record on or before seven days before it, and
    one POST.  The calls of a run are the first [n] of these four, with
    [1 <= n <= 4], and nothing else; the POST comes only after the three
    GETs. *)
Theorem at_most_four_calls_in_order (w : World) :
  (exists d tweet auth n,
     (1 <= n <= 4)%nat /\
     network_calls (fst (main w)) = take n (planned_calls d tweet auth))
  /\ (length (network_calls (fst (main w))) <= 4)%nat.
Proof.
  destruct (at_most_four_calls_prefix w) as (d & tweet & auth & n & Hn & Hc).
  split; [by exists d, tweet, auth, n |].
  rewrite Hc, length_take. unfold planned_calls. simpl. lia.
Qed.

(** ** Posting needs the four credentials *)

Lemma credentials_present_false w k :
  In k CREDENTIALS -> truthy (environ w !! k) = false -> credentials_present w = false.
Proof.
  unfold credentials_present. intros Hk Hf.
  apply not_true_is_false. intros Hall.
  rewrite forallb_forall in Hall. specialize (Hall k Hk). congruence.
Qed.

(** C4. When one of [X_API_KEY], [X_API_SECRET], [X_ACCESS_TOKEN],
    [X_ACCESS_TOKEN_SECRET] is missing from the environment, [post_to_x]
    raises its [RuntimeError] and has issued no request (its trace is
    empty). *)
Theorem post_to_x_missing_credential (w : World) (tweet k : string) :
  In k CREDENTIALS ->
  environ w !! k = None ->
  post_to_x tweet w = ([], Raise (RuntimeError MissingCredentials)).
Proof.
  intros Hk Hnone. rewrite post_unfold.
  rewrite (credentials_present_false w k Hk); [reflexivity |].
  rewrite Hnone. reflexivity.
Qed.

Lemma post_to_x_missing_credential_witness :
  In "X_API_SECRET"%string CREDENTIALS
  /\ environ Examples.no_secret_world !! "X_API_SECRET" = None
  /\ post_to_x "text" Examples.no_secret_world
     = ([], Raise (RuntimeError MissingCredentials)).
Proof.
  split; [simpl; tauto |]. split; [reflexivity |].
  apply (post_to_x_missing_credential Examples.no_secret_world "text" "X_API_SECRET").
  - simpl; tauto.
  - reflexivity.
Defined.

(** An empty credential counts as a missing one. *)
Lemma post_to_x_empty_credential (w : World) (tweet k : string) :
  In k CREDENTIALS ->
  environ w !! k = Some EmptyString ->
  post_to_x tweet w = ([], Raise (RuntimeError MissingCredentials)).
Proof.
  intros Hk Hempty. rewrite post_unfold.
  rewrite (credentials_present_false w k Hk); [reflexivity |].
  rewrite Hempty. reflexivity.
Qed.

(** ** Dry runs *)

Lemma dry_run_enabled_iff w :
  dry_run_enabled w = true <-> environ w !! "DRY_RUN" = Some "1"%string.
Proof.
  unfold dry_run_enabled. rewrite String.eqb_eq.
  destruct (environ w !! "DRY_RUN") as [v |]; simpl.
  - split; congruence.
  - split; discriminate.
Qed.

Lemma build_never_posts w : ~ posts (fst (build_tweet_text w)).
Proof.
  destruct (build_calls w) as (d & n & _ & Ht & _). rewrite Ht.
  intros (url & payload & auth & Hin).
  destruct n as [| [| [| [| n]]]]; simpl in Hin; unfold get_latest, get_on_or_before in Hin;
    intuition discriminate.
Qed.

(** C3, as amended. With [DRY_RUN=1] no run posts.  When
    [build_tweet_text] returns, the run prints the preview, then the
    dry-run notice, and ends with status 0; when it raises, the run logs
    the error and exits with status 1, without a preview. *)
Theorem dry_run_never_posts (w : World) :
  environ w !! "DRY_RUN" = Some "1"%string ->
  ~ posts (fst (main w))
  /\ (forall t tweet, build_tweet_text w = (t, Ok tweet) ->
        main w = (t ++ preview tweet ++ [Print DRY_RUN_NOTICE], Ok tt)
        /\ exit_code (snd (main w)) = 0)
  /\ (forall t e, build_tweet_text w = (t, Raise e) ->
        main w = (t ++ [LogError Build e], Raise (SystemExit 1))
        /\ exit_code (snd (main w)) = 1).
Proof.
  intros Hdry. apply dry_run_enabled_iff in Hdry.
  pose proof (build_never_posts w) as Hnp.
  rewrite main_unfold, Hdry.
  destruct (build_tweet_text w) as [t0 [tweet0 | e0]]; simpl in Hnp.
  - split; [| split].
    + intros (url & payload & auth & Hin). apply Hnp.
      exists url, payload, auth. cbn [fst] in Hin.
      rewrite in_app_iff in Hin. destruct Hin as [Hin | Hin]; [exact Hin |].
      simpl in Hin. intuition discriminate.
    + intros t tweet [= <- <-]. split; reflexivity.
    + intros t e [=].
  - split; [| split].
    + intros (url & payload & auth & Hin). apply Hnp.
      exists url, payload, auth. cbn [fst] in Hin.
      rewrite in_app_iff in Hin. destruct Hin as [Hin | Hin]; [exact Hin |].
      simpl in Hin. intuition discriminate.
    + intros t tweet [=].
    + intros t e [= <- <-]. split; reflexivity.
Qed.

(** The claim fails for a dry run whose fetch fails: the dataset returns no
    rows, the run logs the error and exits with status 1. *)
Lemma dry_run_with_failed_build :
  ~ dry_run_always_succeeds Examples.dry_outage_world.
Proof.
  unfold dry_run_always_succeeds. intros H.
  destruct (H eq_refl) as (_ & _ & Hcode).
  vm_compute in Hcode. discriminate.
Qed.

Lemma dry_run_never_posts_witness :
  environ Examples.dry_world !! "DRY_RUN" = Some "1"%string
  /\ ~ posts (fst (main Examples.dry_world))
  /\ exit_code (snd (main Examples.dry_world)) = 0.
Proof.
  split; [reflexivity |].
  destruct (dry_run_never_posts Examples.dry_world eq_refl) as (Hnp & Hok & _).
  split; [exact Hnp |].
  destruct (build_tweet_text Examples.dry_world) as [t [tweet | e]] eqn:E.
  - apply (Hok t tweet eq_refl).
  - vm_compute in E. discriminate.
Defined.

(** ** Exit status *)

(** C5. A run ends with status 0 or 1.  It ends with 0 exactly when the
    tweet was built and the run either is a dry run (stops at the dry-run
    notice) or posted the tweet; it ends with 1 exactly when
    [build_tweet_text] raised, or the run was not a dry run and [post_to_x]
    raised.  A failing stage is logged as the last event, right after the
    events of that stage, before the exit; no call is made twice: the calls
    of the run are the first [n] of the planned four. *)
Theorem exit_status (w : World) :
  let code := exit_code (snd (main w)) in
  (code = 0 \/ code = 1)
  /\ (code = 0 <->
       exists t tweet, build_tweet_text w = (t, Ok tweet) /\
         (dry_run_enabled w = true \/ returns (post_to_x tweet w)))
  /\ (code = 1 <->
       raises (build_tweet_text w) \/
       exists t tweet, build_tweet_text w = (t, Ok tweet) /\
         dry_run_enabled w = false /\ raises (post_to_x tweet w))
  /\ (forall t e, build_tweet_text w = (t, Raise e) ->
        main w = (t ++ [LogError Build e], Raise (SystemExit 1)))
  /\ (forall t tweet t' e, build_tweet_text w = (t, Ok tweet) ->
        dry_run_enabled w = false ->
        post_to_x tweet w = (t', Raise e) ->
        main w = (t ++ preview tweet ++ t' ++ [LogError Publish e], Raise (SystemExit 1)))
  /\ (exists d tweet auth n, (1 <= n <= 4)%nat /\
        network_calls (fst (main w)) = take n (planned_calls d tweet auth)).
Proof.
  cbv zeta.
  split; [| split; [| split; [| split; [| split]]]].
  - rewrite main_unfold.
    destruct (build_tweet_text w) as [t [tweet | e]]; [| by right].
    destruct (dry_run_enabled w); [by left |].
    unfold publish_path. destruct (post_to_x tweet w) as [t' [resp | e]]; [by left | by right].
  - rewrite main_unfold. unfold returns.
    destruct (build_tweet_text w) as [t [tweet | e]].
    + destruct (dry_run_enabled w).
      * split; [| done]. intros _. exists t, tweet. split; [done | by left].
      * unfold publish_path.
        destruct (post_to_x tweet w) as [t' [resp | e]] eqn:Hp; simpl.
        -- split; [| done]. intros _. exists t, tweet. split; [done |]. right.
           rewrite Hp. by exists resp.
        -- split; [done |].
           intros (t0 & tweet0 & [= <- <-] & [Hd | [a Ha]]); [done |].
           rewrite Hp in Ha. done.
    + simpl. split; [done |]. intros (t0 & tweet0 & [=] & _).
  - rewrite main_unfold. unfold raises.
    destruct (build_tweet_text w) as [t [tweet | e]].
    + destruct (dry_run_enabled w).
      * simpl. split; [done |]. intros [[e He] | (t0 & tweet0 & _ & Hd & _)]; done.
      * unfold publish_path.
        destruct (post_to_x tweet w) as [t' [resp | e]] eqn:Hp; simpl.
        -- split; [done |].
           intros [[e He] | (t0 & tweet0 & [= <- <-] & _ & [e He])]; [done |].
           rewrite Hp in He. done.
        -- split; [| done]. intros _. right. exists t, tweet.
           split; [done |]. split; [done |]. rewrite Hp. by exists e.
    + simpl. split; [| done]. intros _. left. by exists e.
  - intros t e Hb. rewrite main_unfold, Hb. reflexivity.
  - intros t tweet t' e Hb Hd Hp. rewrite main_unfold, Hb, Hd.
    unfold publish_path. rewrite Hp. reflexivity.
  - apply at_most_four_calls_prefix.
Qed.

(** ** The dry-run switch *)

(** C10. The run is a dry run only when [DRY_RUN] is exactly ["1"].  Once
    the tweet is built, any other value, or no value (the default is
    ["0"]), sends [main] down the publish path, where [post_to_x] is called
    with the tweet; ["true"] and ["yes"] are such values. *)
Theorem dry_run_only_when_exactly_1 (w : World) (t : list event) (tweet : string) :
  build_tweet_text w = (t, Ok tweet) ->
  (dry_run_enabled w = true <-> environ w !! "DRY_RUN" = Some "1"%string)
  /\ (environ w !! "DRY_RUN" = Some "1"%string ->
        main w = (t ++ preview tweet ++ [Print DRY_RUN_NOTICE], Ok tt))
  /\ (environ w !! "DRY_RUN" <> Some "1"%string ->
        main w = (t ++ preview tweet ++ fst (publish_path tweet w),
                  snd (publish_path tweet w)))
  /\ (environ w !! "DRY_RUN" = None
       \/ environ w !! "DRY_RUN" = Some "true"%string
       \/ environ w !! "DRY_RUN" = Some "yes"%string ->
        main w = (t ++ preview tweet ++ fst (publish_path tweet w),
                  snd (publish_path tweet w))).
Proof.
  intros Hb.
  assert (Hne : environ w !! "DRY_RUN" <> Some "1"%string ->
                main w = (t ++ preview tweet ++ fst (publish_path tweet w),
                          snd (publish_path tweet w))).
  { intros Hv. rewrite main_unfold, Hb.
    destruct (dry_run_enabled w) eqn:Hd; [| reflexivity].
    apply dry_run_enabled_iff in Hd. contradiction. }
  split; [apply dry_run_enabled_iff |]. split; [| split].
  - intros Hv. rewrite main_unfold, Hb.
    apply dry_run_enabled_iff in Hv. rewrite Hv. reflexivity.
  - exact Hne.
  - intros [Hv | [Hv | Hv]]; apply Hne; rewrite Hv; discriminate.
Qed.

Lemma dry_run_only_when_exactly_1_witness :
  exists t tweet,
    build_tweet_text Examples.true_world = (t, Ok tweet)
    /\ environ Examples.true_world !! "DRY_RUN" = Some "true"%string
    /\ main Examples.true_world
       = (t ++ preview tweet ++ fst (publish_path tweet Examples.true_world),
          snd (publish_path tweet Examples.true_world))
    /\ posts (fst (publish_path tweet Examples.true_world)).
Proof.
  eexists. eexists.
  split; [vm_compute; reflexivity |].
  split; [reflexivity |].
  split.
  - eapply (dry_run_only_when_exactly_1 Examples.true_world); [vm_compute; reflexivity |].
    right. left. reflexivity.
  - vm_compute. do 3 eexists. left. reflexivity.
Defined.

(** ** The three amounts and the two deltas *)

Lemma append_assoc (a b c : string) : (a +:+ b) +:+ c = a +:+ (b +:+ c).
Proof.
  induction a as [| x a IH]; [reflexivity |].
  change (String x ((a +:+ b) +:+ c) = String x (a +:+ (b +:+ c))).
  by rewrite IH.
Qed.

Lemma sub_days_in_range d n :
  Date.in_range (d - n) = true -> Date.sub_days d n = Some (d - n).
Proof. unfold Date.sub_days. by intros ->. Qed.

Lemma sub_days_inv d n t :
  Date.sub_days d n = Some t -> t = d - n /\ Date.in_range (d - n) = true.
Proof.
  unfold Date.sub_days. destruct (Date.in_range (d - n)); [| discriminate].
  intros [= <-]. done.
Qed.

(** When the three fetches succeed, what happens after the guard. *)
Lemma after_guard_fetched w d today_debt y_debt w_debt :
  fetched w d today_debt y_debt w_debt ->
  after_guard w today_debt d =
    ([get_on_or_before (d - 1); get_on_or_before (d - 7)],
     Ok (tweet_of today_debt y_debt w_debt
           (Float.sub today_debt y_debt) (Float.sub today_debt w_debt))).
Proof.
  intros (r0 & s0 & r1 & s1 & r2 & s2 & _ & _ & _ & Hy & Hf1 & Hp1 & Hw & Hf2 & Hp2).
  unfold after_guard.
  rewrite (sub_days_in_range _ _ Hy), Hf1, Hp1, (sub_days_in_range _ _ Hw), Hf2, Hp2.
  reflexivity.
Qed.

Lemma build_fetched w d today_debt y_debt w_debt :
  fetched w d today_debt y_debt w_debt ->
  build_tweet_text w =
    if MAX_STALE_DAYS <? date_today w - d
    then ([get_latest], snd (build_tweet_text w))
    else ([get_latest; get_on_or_before (d - 1); get_on_or_before (d - 7)],
          Ok (tweet_of today_debt y_debt w_debt
                (Float.sub today_debt y_debt) (Float.sub today_debt w_debt))).
Proof.
  intros Hf. pose proof (after_guard_fetched _ _ _ _ _ Hf) as Hag.
  destruct Hf as (r0 & s0 & r1 & s1 & r2 & s2 & Hf0 & Hp0 & Hd & _).
  rewrite !build_unfold, Hf0, Hp0, Hd.
  destruct (MAX_STALE_DAYS <? date_today w - d); [reflexivity |].
  rewrite Hag. reflexivity.
Qed.

(** What a returned text was built from. *)
Lemma build_returns_fetched w text :
  snd (build_tweet_text w) = Ok text ->
  exists d today_debt y_debt w_debt,
    fetched w d today_debt y_debt w_debt
    /\ date_today w - d <= MAX_STALE_DAYS
    /\ text = tweet_of today_debt y_debt w_debt
                (Float.sub today_debt y_debt) (Float.sub today_debt w_debt).
Proof.
  rewrite build_unfold.
  destruct (snd (fetch_latest_debt_row w)) as [r0 | e0] eqn:Hf0; [| discriminate].
  destruct (snd (parse_debt r0 w)) as [[today_debt today_str] | e1] eqn:Hp0;
    [| discriminate].
  destruct (dateparser_parse w today_str) as [d |] eqn:Hd; [| discriminate].
  destruct (MAX_STALE_DAYS <? date_today w - d) eqn:Hs; [discriminate |].
  apply Z.ltb_ge in Hs. simpl. unfold after_guard.
  destruct (Date.sub_days d 1) as [yt |] eqn:Hy; [| discriminate].
  apply sub_days_inv in Hy. destruct Hy as [-> Hy].
  destruct (snd (fetch_debt_on_or_before (Date.isoformat (d - 1)) w))
    as [r1 | e2] eqn:Hf1; [| discriminate].
  destruct (snd (parse_debt r1 w)) as [[y_debt y_str] | e3] eqn:Hp1; [| discriminate].
  destruct (Date.sub_days d 7) as [wt |] eqn:Hw; [| discriminate].
  apply sub_days_inv in Hw. destruct Hw as [-> Hw].
  destruct (snd (fetch_debt_on_or_before (Date.isoformat (d - 7)) w))
    as [r2 | e4] eqn:Hf2; [| discriminate].
  destruct (snd (parse_debt r2 w)) as [[w_debt w_str] | e5] eqn:Hp2; [| discriminate].
  intros [= <-].
  exists d, today_debt, y_debt, w_debt. split; [| split; [exact Hs | reflexivity]].
  exists r0, today_str, r1, y_str, r2, w_str. repeat split; assumption.
Qed.

Lemma contains_prefix (needle before hay : string) :
  contains needle hay -> contains needle (before +:+ hay).
Proof.
  intros (b & a & ->). exists (before +:+ b), a. by rewrite append_assoc.
Qed.

Lemma tweet_contains_deltas today_debt y_debt w_debt daily_inc weekly_inc :
  contains ("Daily Increase: " +:+ format_billions daily_inc +:+ LF)
    (tweet_of today_debt y_debt w_debt daily_inc weekly_inc)
  /\ contains ("Weekly Increase: " +:+ format_billions weekly_inc +:+ LF)
       (tweet_of today_debt y_debt w_debt daily_inc weekly_inc).
Proof.
  unfold tweet_of. split.
  - do 13 apply contains_prefix.
    exists "ðŸ“ˆ "%string,
      ("ðŸ“† Weekly Increase: " +:+ format_billions weekly_inc +:+ LF +:+ LF
       +:+ "#USDebt #DebtCrisis #FiscalReality").
    rewrite !append_assoc. reflexivity.
  - do 16 apply contains_prefix.
    exists "ðŸ“† "%string, (LF +:+ "#USDebt #DebtCrisis #FiscalReality").
    rewrite !append_assoc. reflexivity.
Qed.

(** C1. [build_tweet_text] returns a text exactly when the three fetches
    succeed, their rows parse and the latest record is not stale.  The text
    is then built from the three fetched amounts, with the daily delta
    [today_debt - y_debt] and the weekly delta [today_debt - w_debt], and
    each delta stands, formatted, on its line of the text. *)
Theorem deltas_of_fetched_amounts (w : World) (text : string) :
  (snd (build_tweet_text w) = Ok text <->
   exists d today_debt y_debt w_debt,
     fetched w d today_debt y_debt w_debt
     /\ date_today w - d <= MAX_STALE_DAYS
     /\ text = tweet_of today_debt y_debt w_debt
                 (Float.sub today_debt y_debt) (Float.sub today_debt w_debt))
  /\ (forall today_debt y_debt w_debt,
        let daily_inc := Float.sub today_debt y_debt in
        let weekly_inc := Float.sub today_debt w_debt in
        contains ("Daily Increase: " +:+ format_billions daily_inc +:+ LF)
          (tweet_of today_debt y_debt w_debt daily_inc weekly_inc)
        /\ contains ("Weekly Increase: " +:+ format_billions weekly_inc +:+ LF)
             (tweet_of today_debt y_debt w_debt daily_inc weekly_inc)).
Proof.
  split.
  - split; [apply build_returns_fetched |].
    intros (d & a0 & a1 & a2 & Hf & Hs & ->).
    rewrite (build_fetched _ _ _ _ _ Hf).
    apply Z.ltb_ge in Hs. rewrite Hs. reflexivity.
  - intros a0 a1 a2. cbv zeta. apply tweet_contains_deltas.
Qed.

(** The run of the example world: three amounts, two deltas. *)
Lemma deltas_of_fetched_amounts_example :
  exists today_debt y_debt w_debt,
    Examples.float_of_decimal "34006498581824.09" = Some today_debt
    /\ Examples.float_of_decimal "34001493655565.48" = Some y_debt
    /\ Examples.float_of_decimal "33911227423659.23" = Some w_debt
    /\ snd (build_tweet_text Examples.world)
       = Ok (tweet_of today_debt y_debt w_debt
               (Float.sub today_debt y_debt) (Float.sub today_debt w_debt))
    /\ format_billions (Float.sub today_debt y_debt) = "+$5.00 B"%string
    /\ format_billions (Float.sub today_debt w_debt) = "+$95.27 B"%string.
Proof.
  do 3 eexists.
  split; [vm_compute; reflexivity |].
  split; [vm_compute; reflexivity |].
  split; [vm_compute; reflexivity |].
  split; [vm_compute; reflexivity |].
  split; vm_compute; reflexivity.
Qed.

(** ** The staleness guard *)

(** C2, as amended. When the three fetches succeed and their rows parse
    (amount and date), [build_tweet_text] raises exactly when the latest
    record is dated more than [MAX_STALE_DAYS = 3] days before the current
    date; a record exactly three days old is accepted. *)
Theorem staleness_guard (w : World) (d : Z) (today_debt y_debt w_debt : float) :
  fetched w d today_debt y_debt w_debt ->
  MAX_STALE_DAYS = 3
  /\ (raises (build_tweet_text w) <-> MAX_STALE_DAYS < date_today w - d)
  /\ (date_today w - d = 3 -> returns (build_tweet_text w)).
Proof.
  intros Hf. pose proof (build_fetched _ _ _ _ _ Hf) as Hb.
  destruct Hf as (r0 & s0 & r1 & s1 & r2 & s2 & Hf0 & Hp0 & Hd & _).
  split; [reflexivity |]. split; [split |].
  - intros [e He]. apply Z.ltb_lt.
    destruct (MAX_STALE_DAYS <? date_today w - d); [reflexivity |].
    rewrite Hb in He. discriminate.
  - intros Hs. apply Z.ltb_lt in Hs.
    rewrite build_unfold, Hf0, Hp0, Hd, Hs. by eexists.
  - intros H3. rewrite Hb.
    replace (MAX_STALE_DAYS <? date_today w - d) with false.
    + by eexists.
    + symmetry. apply Z.ltb_ge. unfold MAX_STALE_DAYS. lia.
Qed.

Lemma fetched_example today :
  fetched (at_date Examples.world today) 738890
    Examples.today_debt Examples.y_debt Examples.w_debt.
Proof.
  unfold fetched. do 6 eexists.
  repeat split; vm_compute; reflexivity.
Qed.

Lemma staleness_guard_witness :
  fetched (at_date Examples.world 738893) 738890
    Examples.today_debt Examples.y_debt Examples.w_debt
  /\ date_today (at_date Examples.world 738893) - 738890 = 3
  /\ returns (build_tweet_text (at_date Examples.world 738893)).
Proof.
  split; [apply fetched_example |]. split; [reflexivity |].
  apply (staleness_guard (at_date Examples.world 738893) 738890
           Examples.today_debt Examples.y_debt Examples.w_debt
           (fetched_example 738893)).
  reflexivity.
Defined.

(** Four days are too many. *)
Lemma staleness_guard_rejects_four_days :
  build_tweet_text (at_date Examples.world 738894)
  = ([get_latest], Raise (RuntimeError (StaleData "2024-01-05" 4))).
Proof. vm_compute. reflexivity. Qed.

(** The claim fails when a fetched row does not parse: the latest row is of
    the day, the three fetches return a row each, and the build raises
    [ValueError] on the amount [null]. *)
Lemma fresh_record_without_amount :
  ~ fails_exactly_when_stale Examples.null_world 738891.
Proof.
  unfold fails_exactly_when_stale. intros H.
  assert (Hrows : rows_fetched Examples.null_world 738891).
  { unfold rows_fetched. do 4 eexists. repeat split; vm_compute; reflexivity. }
  destruct (H Hrows) as [Hstale _].
  assert (Hraises : raises (build_tweet_text Examples.null_world)).
  { exists (ValueError "null"). vm_compute. reflexivity. }
  apply Hstale in Hraises. vm_compute in Hraises. discriminate.
Qed.

(** ** The targets of the two earlier fetches *)

Lemma request_at_date p w today : _request p (at_date w today) = _request p w.
Proof.
  rewrite (request_eq p (at_date w today)), (request_eq p w), !request_result.
  reflexivity.
Qed.

Lemma parse_debt_at_date r w today : parse_debt r (at_date w today) = parse_debt r w.
Proof.
  unfold parse_debt, bind, getitem, of_option.
  destruct (r !! "tot_pub_debt_out_amt") as [a |]; [| reflexivity]. simpl.
  destruct (py_float w a); [| reflexivity].
  destruct (r !! "record_date"); reflexivity.
Qed.

Lemma after_guard_at_date w today a d :
  after_guard (at_date w today) a d = after_guard w a d.
Proof.
  unfold after_guard, fetch_debt_on_or_before.
  destruct (Date.sub_days d 1) as [yt |]; [| reflexivity].
  rewrite request_at_date.
  destruct (snd (_request _ w)) as [r1 | e1]; [| reflexivity].
  rewrite parse_debt_at_date.
  destruct (snd (parse_debt r1 w)) as [[y_debt y_str] | e2]; [| reflexivity].
  destruct (Date.sub_days d 7) as [wt |]; [| reflexivity].
  rewrite request_at_date.
  destruct (snd (_request _ w)) as [r2 | e3]; [| reflexivity].
  rewrite parse_debt_at_date. reflexivity.
Qed.

(** C9. The two earlier fetches are anchored to the date [d] of the latest
    fetched record, not to the date of the run.  Whenever the latest record
    passes the staleness guard, the requests of [build_tweet_text] are the
    first [n] of: the latest, on or before [d - 1], on or before [d - 7].
    The second is issued exactly when [d - 1] is a date, and the third
    exactly when, moreover, the second fetch returns a row that parses and
    [d - 7] is a date; so all three are issued when the build returns.  On
    any other day of run within the threshold the build makes the same
    requests and gives the same result; on a day of run beyond the
    threshold neither earlier fetch is made. *)
Theorem targets_anchored_to_latest_record
  (w : World) (latest_row : row) (today_debt : float) (today_str : string) (d : Z) :
  snd (fetch_latest_debt_row w) = Ok latest_row ->
  snd (parse_debt latest_row w) = Ok (today_debt, today_str) ->
  dateparser_parse w today_str = Some d ->
  date_today w - d <= MAX_STALE_DAYS ->
  (exists n, (1 <= n <= 3)%nat
     /\ fst (build_tweet_text w) =
          take n [get_latest;
                  Get BASE_URL (on_or_before_params (Date.isoformat (d - 1)));
                  Get BASE_URL (on_or_before_params (Date.isoformat (d - 7)))]
     /\ ((2 <= n)%nat <-> Date.in_range (d - 1) = true)
     /\ (n = 3%nat <->
         Date.in_range (d - 1) = true
         /\ (exists y_row y,
               snd (fetch_debt_on_or_before (Date.isoformat (d - 1)) w) = Ok y_row
               /\ snd (parse_debt y_row w) = Ok y)
         /\ Date.in_range (d - 7) = true)
     /\ (returns (build_tweet_text w) -> n = 3%nat))
  /\ (forall today, today - d <= MAX_STALE_DAYS ->
        build_tweet_text (at_date w today) = build_tweet_text w)
  /\ (forall today, MAX_STALE_DAYS < today - d ->
        build_tweet_text (at_date w today)
        = ([get_latest], Raise (RuntimeError (StaleData today_str (today - d))))).
Proof.
  intros Hf0 Hp0 Hd Hs. apply Z.ltb_ge in Hs.
  split; [| split].
  - rewrite build_unfold, Hf0, Hp0, Hd, Hs. cbn [fst snd].
    unfold after_guard, returns, Date.sub_days.
    destruct (Date.in_range (d - 1)) eqn:Hy.
    2: { exists 1%nat. split; [lia |]. split; [reflexivity |].
         split; [split; [lia | discriminate] |].
         split; [split; [lia | intros ([=] & _)] |]. intros [? [=]]. }
    destruct (snd (fetch_debt_on_or_before (Date.isoformat (d - 1)) w))
      as [r1 | e1] eqn:Hf1.
    2: { exists 2%nat. split; [lia |]. split; [reflexivity |].
         split; [split; [reflexivity | lia] |].
         split; [split; [lia | intros (_ & (? & ? & [=] & _) & _)] |].
         intros [? [=]]. }
    destruct (snd (parse_debt r1 w)) as [[y_debt y_str] | e2] eqn:Hp1.
    2: { exists 2%nat. split; [lia |]. split; [reflexivity |].
         split; [split; [reflexivity | lia] |].
         split; [split; [lia | intros (_ & (? & ? & [= <-] & Hp) & _); congruence] |].
         intros [? [=]]. }
    destruct (Date.in_range (d - 7)) eqn:Hw.
    2: { exists 2%nat. split; [lia |]. split; [reflexivity |].
         split; [split; [reflexivity | lia] |].
         split; [split; [lia | intros (_ & _ & [=])] |]. intros [? [=]]. }
    exists 3%nat. split; [lia |]. split.
    { destruct (snd (fetch_debt_on_or_before (Date.isoformat (d - 7)) w)) as [r2 | e3];
        [| reflexivity].
      destruct (snd (parse_debt r2 w)) as [[w_debt w_str] | e4]; reflexivity. }
    split; [split; [reflexivity | lia] |].
    split; [| reflexivity].
    split; [| reflexivity]. intros _.
    split; [reflexivity |]. split; [| reflexivity].
    by exists r1, (y_debt, y_str).
  - intros today Ht. apply Z.ltb_ge in Ht.
    rewrite (build_unfold (at_date w today)), (build_unfold w).
    unfold fetch_latest_debt_row in *.
    rewrite request_at_date, Hf0, parse_debt_at_date, Hp0.
    change (dateparser_parse (at_date w today)) with (dateparser_parse w).
    rewrite Hd.
    change (date_today (at_date w today)) with today.
    rewrite Ht, Hs, after_guard_at_date. reflexivity.
  - intros today Ht. apply Z.ltb_lt in Ht.
    rewrite (build_unfold (at_date w today)).
    unfold fetch_latest_debt_row in *.
    rewrite request_at_date, Hf0, parse_debt_at_date, Hp0.
    change (dateparser_parse (at_date w today)) with (dateparser_parse w).
    rewrite Hd.
    change (date_today (at_date w today)) with today.
    rewrite Ht. reflexivity.
Qed.

Lemma latest_row_example :
  snd (fetch_latest_debt_row Examples.three_days_later) = Ok Examples.latest_row.
Proof. vm_compute. reflexivity. Qed.

Lemma parse_debt_example :
  snd (parse_debt Examples.latest_row Examples.three_days_later)
  = Ok (Examples.today_debt, "2024-01-05"%string).
Proof. vm_compute. reflexivity. Qed.

Lemma targets_anchored_to_latest_record_witness :
  snd (fetch_latest_debt_row Examples.three_days_later) = Ok Examples.latest_row
  /\ snd (parse_debt Examples.latest_row Examples.three_days_later)
     = Ok (Examples.today_debt, "2024-01-05"%string)
  /\ dateparser_parse Examples.three_days_later "2024-01-05" = Some 738890
  /\ date_today Examples.three_days_later - 738890 <= MAX_STALE_DAYS
  /\ fst (build_tweet_text Examples.three_days_later)
     = [get_latest;
        Get BASE_URL (on_or_before_params "2024-01-04");
        Get BASE_URL (on_or_before_params "2023-12-29")]
  /\ (forall today, today - 738890 <= MAX_STALE_DAYS ->
        build_tweet_text (at_date Examples.three_days_later today)
        = build_tweet_text Examples.three_days_later)
  /\ (forall today, MAX_STALE_DAYS < today - 738890 ->
        fst (build_tweet_text (at_date Examples.three_days_later today)) = [get_latest]).
Proof.
  assert (Hs : date_today Examples.three_days_later - 738890 <= MAX_STALE_DAYS)
    by discriminate.
  destruct (targets_anchored_to_latest_record Examples.three_days_later
              Examples.latest_row Examples.today_debt "2024-01-05" 738890
              latest_row_example parse_debt_example eq_refl Hs)
    as [(n & Hn & Ht & H2 & H3 & Hr) [Hsame Hstale]].
  split; [exact latest_row_example |].
  split; [exact parse_debt_example |].
  split; [reflexivity |].
  split; [exact Hs |].
  split; [| split; [exact Hsame |]].
  - assert (Hn3 : n = 3%nat).
    { apply H3. split; [reflexivity |]. split; [| reflexivity].
      exists (FiscalData.row_of (FiscalData.Build_DebtRecord 738889 "34001493655565.48")),
        (Examples.y_debt, "2024-01-04"%string).
      split; vm_compute; reflexivity. }
    rewrite Ht, Hn3. reflexivity.
  - intros today Hlt. rewrite (Hstale today Hlt). reflexivity.
Defined.

(** The requests of that run. *)
Lemma targets_example :
  fst (build_tweet_text Examples.three_days_later)
  = [get_latest;
     Get BASE_URL (on_or_before_params "2024-01-04");
     Get BASE_URL (on_or_before_params "2023-12-29")].
Proof. vm_compute. reflexivity. Qed.

(** ** The fetches against the model of the dataset API *)

Lemma insert_desc_In r l x : In x (insert_desc r l) <-> x = r \/ In x l.
Proof.
  induction l as [| y l IH]; simpl.
  - intuition.
  - destruct (record_date y <=? record_date r); simpl; [intuition |].
    rewrite IH. intuition.
Qed.

Lemma sort_desc_In l x : In x (sort_desc l) <-> In x l.
Proof.
  induction l as [| y l IH]; simpl; [reflexivity |].
  rewrite insert_desc_In, IH. intuition.
Qed.

Lemma insert_desc_sorted r l :
  StronglySorted later_first l -> StronglySorted later_first (insert_desc r l).
Proof.
  induction 1 as [| y l Hs IH Hy]; simpl.
  - constructor; [constructor | constructor].
  - destruct (record_date y <=? record_date r) eqn:E.
    + apply Z.leb_le in E. constructor; [by constructor |].
      constructor; [exact E |].
      rewrite List.Forall_forall in Hy |- *. intros z Hz.
      specialize (Hy z Hz). unfold later_first in *. lia.
    + apply Z.leb_gt in E. constructor; [exact IH |].
      rewrite List.Forall_forall in Hy |- *. intros z Hz.
      apply insert_desc_In in Hz. destruct Hz as [-> | Hz].
      * unfold later_first. lia.
      * by apply Hy.
Qed.

Lemma sort_desc_sorted l : StronglySorted later_first (sort_desc l).
Proof.
  induction l as [| y l IH]; simpl; [constructor | by apply insert_desc_sorted].
Qed.

(** The first record of the sorted list is a most recent one. *)
Lemma sort_desc_head l :
  match sort_desc l with
  | [] => l = []
  | r :: _ => most_recent l r
  end.
Proof.
  pose proof (sort_desc_sorted l) as Hs.
  pose proof (sort_desc_In l) as Hin.
  destruct (sort_desc l) as [| r rest].
  - destruct l as [| y l]; [reflexivity |].
    exfalso. apply (Hin y). by left.
  - split.
    + apply Hin. by left.
    + intros r' Hr'. apply Hin in Hr'. destruct Hr' as [<- | Hr']; [lia |].
      inversion Hs as [| ? ? _ Hall]; subst.
      rewrite List.Forall_forall in Hall. by apply Hall.
Qed.

Lemma serve_latest db url :
  serve db url latest_params = answer_with (map row_of (take 1 (sort_desc db))).
Proof. reflexivity. Qed.

Lemma serve_on_or_before db url target t :
  Date.of_iso target = Some t ->
  serve db url (on_or_before_params target)
  = answer_with
      (map row_of (take 1 (sort_desc (List.filter (fun r => record_date r <=? t) db)))).
Proof.
  intros Ht. unfold serve, select, on_or_before_params.
  change (lookup_param "filter" _) with (Some (PStr ("record_date:lte:" +:+ target))).
  cbv iota beta.
  change (strip_prefix "record_date:lte:" ("record_date:lte:" +:+ target))
    with (Some target).
  cbv iota beta. rewrite Ht. reflexivity.
Qed.

(** [_request] on an answer that carries rows. *)
Lemma request_answer_with p w rows :
  requests_get w BASE_URL p = answer_with rows ->
  _request p w =
    ([Get BASE_URL p],
     match rows with
     | [] => Raise (RuntimeError (NoDataReturned p))
     | first :: _ => Ok first
     end).
Proof.
  intros Ha. rewrite (request_eq p w), request_result, Ha.
  unfold answer_with. cbn [status_code json]. cbn [Z.leb Z.ltb Z.compare Pos.compare Pos.compare_cont andb].
  rewrite lookup_singleton_eq. reflexivity.
Qed.

(** [_request] raises exactly on an answer without rows. *)
Lemma request_raises_iff p w :
  raises (_request p w) <-> no_rows (requests_get w BASE_URL p).
Proof.
  unfold raises, no_rows. rewrite request_result.
  destruct (requests_get w BASE_URL p) as [resp | detail].
  2: { split; [done | intros _; by eexists]. }
  destruct ((400 <=? status_code resp) && (status_code resp <? 600)) eqn:Hst.
  - apply andb_true_iff in Hst. destruct Hst as [H1 H2].
    apply Z.leb_le in H1. apply Z.ltb_lt in H2.
    split; [intros _; left; lia | intros _; by eexists].
  - assert (Hnot : ~ 400 <= status_code resp < 600).
    { intros [H1 H2]. apply Z.leb_le in H1. apply Z.ltb_lt in H2.
      rewrite H1, H2 in Hst. discriminate. }
    destruct (json resp) as [b |].
    + destruct (default [] (b !! "data")) as [| first rest] eqn:Hdata.
      * split; [| intros _; by eexists].
        intros _. right. right. exists b. done.
      * split; [intros [e He]; discriminate |].
        intros [H | [H | (b' & [= <-] & H)]]; [contradiction | discriminate |].
        rewrite Hdata in H. discriminate.
    + split; [intros _; right; by left | intros _; by eexists].
Qed.

Lemma filter_on_or_before db t r :
  In r (List.filter (fun r => record_date r <=? t) db) <-> In r db /\ record_date r <= t.
Proof. rewrite filter_In, Z.leb_le. reflexivity. Qed.

(** C6. With the remote API answering as the model does, for a target
    that reads as the date [t]: [fetch_debt_on_or_before] returns the row of
    a most recent record dated [t] or before when there is one, and raises
    when there is none; [fetch_latest_debt_row] returns the row of a most
    recent record of the dataset, and raises when the dataset is empty.
    Against any remote, each of the two raises exactly when the call errors
    (library exception, 4xx or 5xx status, no JSON) or the answer has no
    rows. *)
Theorem fetch_returns_most_recent
  (w : World) (db : list DebtRecord) (target : string) (t : Z) :
  requests_get w = serve db ->
  Date.of_iso target = Some t ->
  ((exists r, In r db /\ record_date r <= t) ->
     exists r, most_recent_on_or_before db t r
       /\ fetch_debt_on_or_before target w
          = ([Get BASE_URL (on_or_before_params target)], Ok (row_of r)))
  /\ ((forall r, In r db -> t < record_date r) ->
       fetch_debt_on_or_before target w
       = ([Get BASE_URL (on_or_before_params target)],
          Raise (RuntimeError (NoDataReturned (on_or_before_params target)))))
  /\ (db <> [] ->
       exists r, most_recent db r
         /\ fetch_latest_debt_row w = ([Get BASE_URL latest_params], Ok (row_of r)))
  /\ (db = [] ->
       fetch_latest_debt_row w
       = ([Get BASE_URL latest_params], Raise (RuntimeError (NoDataReturned latest_params))))
  /\ (forall w' target',
        (raises (fetch_debt_on_or_before target' w')
         <-> no_rows (requests_get w' BASE_URL (on_or_before_params target')))
        /\ (raises (fetch_latest_debt_row w')
            <-> no_rows (requests_get w' BASE_URL latest_params))).
Proof.
  intros Hw Ht.
  pose proof (sort_desc_head (List.filter (fun r => record_date r <=? t) db)) as Hsel.
  pose proof (sort_desc_head db) as Hall.
  assert (Hreq1 : fetch_debt_on_or_before target w =
    ([Get BASE_URL (on_or_before_params target)],
     match map row_of (take 1 (sort_desc (List.filter (fun r => record_date r <=? t) db))) with
     | [] => Raise (RuntimeError (NoDataReturned (on_or_before_params target)))
     | first :: _ => Ok first
     end)).
  { apply request_answer_with. rewrite Hw. by apply serve_on_or_before. }
  assert (Hreq2 : fetch_latest_debt_row w =
    ([Get BASE_URL latest_params],
     match map row_of (take 1 (sort_desc db)) with
     | [] => Raise (RuntimeError (NoDataReturned latest_params))
     | first :: _ => Ok first
     end)).
  { apply request_answer_with. rewrite Hw. apply serve_latest. }
  split; [| split; [| split; [| split]]].
  - intros (r0 & Hin0 & Hle0). rewrite Hreq1.
    destruct (sort_desc (List.filter _ db)) as [| r rest].
    + exfalso. assert (Hr0 : In r0 (List.filter (fun r => record_date r <=? t) db))
        by (by apply filter_on_or_before).
      rewrite Hsel in Hr0. exact Hr0.
    + exists r. split; [| reflexivity].
      destruct Hsel as [Hin Hmax]. apply filter_on_or_before in Hin.
      destruct Hin as [Hin Hle]. split; [exact Hin |]. split; [exact Hle |].
      intros r' Hin' Hle'. apply Hmax. by apply filter_on_or_before.
  - intros Hnone. rewrite Hreq1.
    destruct (sort_desc (List.filter _ db)) as [| r rest]; [reflexivity |].
    exfalso. destruct Hsel as [Hin _]. apply filter_on_or_before in Hin.
    destruct Hin as [Hin Hle]. specialize (Hnone r Hin). lia.
  - intros Hne. rewrite Hreq2.
    destruct (sort_desc db) as [| r rest]; [contradiction |].
    exists r. split; [exact Hall | reflexivity].
  - intros ->. exact Hreq2.
  - intros w' target'. split; apply request_raises_iff.
Qed.

Lemma fetch_returns_most_recent_witness :
  requests_get Examples.world = serve Examples.db
  /\ Date.of_iso "2024-01-03" = Some 738888
  /\ (exists r, In r Examples.db /\ record_date r <= 738888)
  /\ (exists r, most_recent_on_or_before Examples.db 738888 r
        /\ fetch_debt_on_or_before "2024-01-03" Examples.world
           = ([Get BASE_URL (on_or_before_params "2024-01-03")], Ok (row_of r))).
Proof.
  split; [reflexivity |]. split; [reflexivity |].
  assert (Hr : exists r, In r Examples.db /\ record_date r <= 738888).
  { exists {| record_date := 738886; tot_pub_debt_out_amt := "33974462006581.61" |}.
    split; [simpl; tauto | simpl; lia]. }
  split; [exact Hr |].
  apply (fetch_returns_most_recent Examples.world Examples.db "2024-01-03" 738888
           eq_refl eq_refl).
  exact Hr.
Defined.

(** On the example dataset the record on or before 2024-01-03 is that of
    2024-01-01. *)
Lemma fetch_on_or_before_example :
  snd (fetch_debt_on_or_before "2024-01-03" Examples.world)
  = Ok (row_of {| record_date := 738886; tot_pub_debt_out_amt := "33974462006581.61" |}).
Proof. vm_compute. reflexivity. Qed.

(** ** The rendering of a delta *)

(** *** Digits *)

Lemma digit_char_is_digit d : 0 <= d <= 9 -> is_digit (digit_char d) = true.
Proof.
  intros Hd. assert (H : d = 0 \/ d = 1 \/ d = 2 \/ d = 3 \/ d = 4 \/ d = 5 \/ d = 6
                         \/ d = 7 \/ d = 8 \/ d = 9) by lia.
  repeat (destruct H as [-> | H]; [reflexivity |]). subst d. reflexivity.
Qed.

Lemma digit_char_value d : 0 <= d <= 9 -> digit_value (digit_char d) = d.
Proof.
  intros Hd. assert (H : d = 0 \/ d = 1 \/ d = 2 \/ d = 3 \/ d = 4 \/ d = 5 \/ d = 6
                         \/ d = 7 \/ d = 8 \/ d = 9) by lia.
  repeat (destruct H as [-> | H]; [reflexivity |]). subst d. reflexivity.
Qed.

Lemma digit_not_comma a : is_digit a = true -> is_comma a = false.
Proof.
  unfold is_digit, is_comma. intros H.
  destruct (Ascii.eqb a ",") eqn:E; [| reflexivity].
  apply Ascii.eqb_eq in E. subst a. discriminate.
Qed.

Lemma digits_lsf_spec fuel n :
  (0 < fuel)%nat ->
  0 <= n < 2 ^ Z.of_nat fuel ->
  let ds := digits_lsf fuel n in
  ds <> [] /\ Forall (fun a => is_digit a = true) ds /\ value_from_units ds = n.
Proof.
  revert n. induction fuel as [| k IH]; intros n Hk Hn; [lia |].
  cbn [digits_lsf]. destruct (n <? 10) eqn:E.
  - apply Z.ltb_lt in E. cbv zeta. split; [discriminate |]. split.
    + constructor; [apply digit_char_is_digit; lia | constructor].
    + unfold value_from_units. cbn [fold_right].
      rewrite digit_not_comma by (apply digit_char_is_digit; lia).
      rewrite digit_char_value by lia. lia.
  - apply Z.ltb_ge in E. cbv zeta.
    assert (Hmod : 0 <= n mod 10 <= 9) by (pose proof (Z.mod_pos_bound n 10); lia).
    assert (Hdiv : 0 <= n / 10 < 2 ^ Z.of_nat k).
    { split; [apply Z.div_pos; lia |].
      apply Z.div_lt_upper_bound; [lia |].
      rewrite Nat2Z.inj_succ, Z.pow_succ_r in Hn by lia. lia. }
    assert (Hpos : 1 <= n / 10) by (apply Z.div_le_lower_bound; lia).
    assert (Hk' : (0 < k)%nat).
    { destruct k; [| lia]. simpl in Hdiv. lia. }
    destruct (IH (n / 10) Hk' Hdiv) as (Hne & Hall & Hval).
    split; [discriminate |]. split.
    + constructor; [by apply digit_char_is_digit | exact Hall].
    + unfold value_from_units in *. cbn [fold_right].
      rewrite digit_not_comma by (by apply digit_char_is_digit).
      rewrite digit_char_value by lia. rewrite Hval.
      pose proof (Z.div_mod n 10). lia.
Qed.

Lemma digits_fuel_enough n : 0 <= n -> 0 <= n < 2 ^ Z.of_nat (digits_fuel n).
Proof.
  intros Hn. split; [exact Hn |]. unfold digits_fuel.
  destruct (Z.eq_dec n 0) as [-> | Hne]; [reflexivity |].
  rewrite Nat2Z.inj_succ, Z2Nat.id by apply Z.log2_nonneg.
  apply Z.log2_spec. lia.
Qed.

(** *** Thousands separators *)

Lemma group3_spec k :
  forall ds, (length ds <= k)%nat ->
    Forall (fun a => is_digit a = true) ds ->
    value_from_units (group3 ds) = value_from_units ds
    /\ (ds <> [] -> grouped_from_units (group3 ds) = true).
Proof.
  induction k as [| k IH]; intros ds Hlen Hall.
  - destruct ds; [| simpl in Hlen; lia]. split; [reflexivity | congruence].
  - destruct ds as [| a [| b [| c [| d rest]]]].
    + split; [reflexivity | congruence].
    + inversion Hall; subst. split; [reflexivity |]. intros _. simpl. assumption.
    + inversion Hall as [| ? ? Ha Hall1]; subst. inversion Hall1; subst.
      split; [reflexivity |]. intros _. simpl. rewrite Ha. assumption.
    + inversion Hall as [| ? ? Ha Hall1]; subst.
      inversion Hall1 as [| ? ? Hb Hall2]; subst. inversion Hall2; subst.
      split; [reflexivity |]. intros _. simpl. rewrite Ha, Hb. assumption.
    + inversion Hall as [| ? ? Ha Hall1]; subst.
      inversion Hall1 as [| ? ? Hb Hall2]; subst.
      inversion Hall2 as [| ? ? Hc Hall3]; subst.
      assert (Hlen' : (length (d :: rest) <= k)%nat) by (simpl in *; lia).
      destruct (IH (d :: rest) Hlen' Hall3) as [Hval Hgr].
      change (group3 (a :: b :: c :: d :: rest))
        with (a :: b :: c :: ","%char :: group3 (d :: rest)).
      split.
      * unfold value_from_units in *. cbn [fold_right].
        rewrite (digit_not_comma a Ha), (digit_not_comma b Hb), (digit_not_comma c Hc).
        change (is_comma ",") with true. cbv iota. rewrite Hval. reflexivity.
      * intros _.
        change (grouped_from_units (a :: b :: c :: ","%char :: group3 (d :: rest)))
          with (is_digit a && is_digit b && is_digit c && is_comma ","
                && grouped_from_units (group3 (d :: rest))).
        rewrite Ha, Hb, Hc, Hgr by discriminate. reflexivity.
Qed.

Lemma decimal_value_rev l :
  decimal_value (string_of_chars (rev l)) = value_from_units l.
Proof.
  unfold decimal_value, string_of_chars, value_from_units.
  rewrite list_ascii_of_string_of_list_ascii.
  rewrite <- fold_left_rev_right, rev_involutive. reflexivity.
Qed.

Lemma thousands_separated_rev l :
  thousands_separated (string_of_chars (rev l)) = grouped_from_units l.
Proof.
  unfold thousands_separated, string_of_chars.
  rewrite list_ascii_of_string_of_list_ascii, rev_involutive. reflexivity.
Qed.

(** The integer part: well grouped, and it reads back as the number. *)
Lemma grouped_int_spec n :
  0 <= n ->
  thousands_separated (grouped_int n) = true /\ decimal_value (grouped_int n) = n.
Proof.
  intros Hn. unfold grouped_int.
  destruct (digits_lsf_spec (digits_fuel n) n) as (Hne & Hall & Hval).
  { unfold digits_fuel. lia. }
  { by apply digits_fuel_enough. }
  destruct (group3_spec (length (digits_lsf (digits_fuel n) n)) _ (le_n _) Hall)
    as [Hv Hg].
  rewrite thousands_separated_rev, decimal_value_rev, Hv, Hval.
  split; [by apply Hg | reflexivity].
Qed.

(** *** Rounding to hundredths *)

Lemma round_half_even_spec num den :
  0 < den ->
  let c := round_half_even num den in
  2 * Z.abs (c * den - num) <= den
  /\ (2 * Z.abs (c * den - num) = den -> Z.even c = true).
Proof.
  intros Hden. unfold round_half_even.
  pose proof (Z.div_mod num den ltac:(lia)) as Hdm.
  pose proof (Z.mod_pos_bound num den Hden) as Hr.
  set (q := num / den) in *. set (r := num mod den) in *.
  assert (Hdown : Z.abs (q * den - num) = r).
  { replace (q * den - num) with (- r) by lia.
    rewrite Z.abs_opp. apply Z.abs_eq. lia. }
  assert (Hup : Z.abs ((q + 1) * den - num) = den - r).
  { replace ((q + 1) * den - num) with (den - r) by lia.
    apply Z.abs_eq. lia. }
  destruct (2 * r ?= den) eqn:E; cbv zeta.
  - apply Z.compare_eq in E. destruct (Z.even q) eqn:Eq.
    + rewrite Hdown. split; [lia | intros _; exact Eq].
    + rewrite Hup. split; [lia |]. intros _.
      replace (q + 1) with (Z.succ q) by lia. rewrite Z.even_succ.
      rewrite <- Z.negb_even, Eq. reflexivity.
  - change (2 * r < den) in E. rewrite Hdown. split; lia.
  - change (2 * r > den) in E. rewrite Hup. split; lia.
Qed.

Lemma abs_den_pos x : 0 < abs_den x.
Proof. destruct x; simpl; try lia; apply Z.pow_pos_nonneg; lia. Qed.

Lemma abs_num_nonneg x : 0 <= abs_num x.
Proof.
  destruct x; simpl; try lia;
    (apply Z.mul_nonneg_nonneg; [lia |]; apply Z.pow_nonneg; lia).
Qed.

Lemma round_half_even_nonneg num den :
  0 < den -> 0 <= num -> 0 <= round_half_even num den.
Proof.
  intros Hden Hnum. unfold round_half_even.
  pose proof (Z.div_pos num den Hnum Hden).
  destruct (2 * (num mod den) ?= den); [destruct (Z.even (num / den)) | |]; lia.
Qed.

Lemma cents_spec x : 0 <= cents x /\ nearest_hundredths x (cents x).
Proof.
  unfold cents, nearest_hundredths. split.
  - apply round_half_even_nonneg; [apply abs_den_pos |].
    pose proof (abs_num_nonneg x). lia.
  - apply round_half_even_spec. apply abs_den_pos.
Qed.

(** *** The two decimals *)

Lemma fixed2_spec c :
  0 <= c ->
  exists int_part d1 d2,
    fixed2 c = int_part +:+ "." +:+ String d1 (String d2 EmptyString)
    /\ thousands_separated int_part = true
    /\ is_digit d1 = true
    /\ is_digit d2 = true
    /\ 100 * decimal_value int_part + 10 * digit_value d1 + digit_value d2 = c.
Proof.
  intros Hc. unfold fixed2, two_digits.
  assert (Hq : 0 <= c / 100) by (apply Z.div_pos; lia).
  pose proof (Z.mod_pos_bound c 100 ltac:(lia)) as Hm.
  destruct (grouped_int_spec (c / 100) Hq) as [Hg Hv].
  assert (H1 : 0 <= c mod 100 / 10 <= 9).
  { split; [apply Z.div_pos; lia |].
    assert (c mod 100 / 10 < 10) by (apply Z.div_lt_upper_bound; lia). lia. }
  pose proof (Z.mod_pos_bound (c mod 100) 10 ltac:(lia)) as H2.
  exists (grouped_int (c / 100)), (digit_char (c mod 100 / 10)),
    (digit_char (c mod 100 mod 10)).
  split; [reflexivity |]. split; [exact Hg |].
  split; [apply digit_char_is_digit; lia |].
  split; [apply digit_char_is_digit; lia |].
  rewrite Hv, !digit_char_value by lia.
  pose proof (Z.div_mod c 100 ltac:(lia)).
  pose proof (Z.div_mod (c mod 100) 10 ltac:(lia)). lia.
Qed.

(** *** Dividing a finite float by a billion gives a finite float *)

Lemma digits2_pos_bound p : forall k, 0 <= k -> Z.pos p < 2 ^ k -> Z.pos (digits2_pos p) <= k.
Proof.
  induction p as [p IH | p IH |]; intros k Hk Hp; cbn [digits2_pos].
  - assert (k <> 0) by (intros ->; simpl in Hp; lia).
    replace k with (Z.succ (k - 1)) in Hp by lia.
    rewrite Z.pow_succ_r in Hp by lia.
    specialize (IH (k - 1) ltac:(lia) ltac:(lia)). lia.
  - assert (k <> 0) by (intros ->; simpl in Hp; lia).
    replace k with (Z.succ (k - 1)) in Hp by lia.
    rewrite Z.pow_succ_r in Hp by lia.
    specialize (IH (k - 1) ltac:(lia) ltac:(lia)). lia.
  - assert (k <> 0) by (intros ->; simpl in Hp; lia). lia.
Qed.

Lemma digits2_pos_lt p : Z.pos p < 2 ^ Z.pos (digits2_pos p).
Proof.
  induction p as [p IH | p IH |]; cbn [digits2_pos].
  - rewrite Pos2Z.inj_succ, Z.pow_succ_r by lia. lia.
  - rewrite Pos2Z.inj_succ, Z.pow_succ_r by lia. lia.
  - reflexivity.
Qed.

Lemma Zdigits2_bound m k : 0 <= k -> 0 <= m < 2 ^ k -> Zdigits2 m <= k.
Proof.
  intros Hk Hm. destruct m as [| p | p]; simpl; [lia | | lia].
  apply digits2_pos_bound; lia.
Qed.

Lemma shr_1_bound M r : 0 <= shr_m r <= M -> 0 <= shr_m (shr_1 r) <= M.
Proof.
  destruct r as [m rb sb]. simpl.
  destruct m as [| [p | p |] | p]; simpl; lia.
Qed.

Lemma iter_pos_shr_1_bound M p :
  forall r, 0 <= shr_m r <= M -> 0 <= shr_m (SpecFloat.iter_pos shr_1 p r) <= M.
Proof.
  induction p as [p IH | p IH |]; intros r Hr; cbn [SpecFloat.iter_pos].
  - apply IH, IH. by apply shr_1_bound.
  - by apply IH, IH.
  - by apply shr_1_bound.
Qed.

Lemma shr_record_of_loc_m m l : shr_m (shr_record_of_loc m l) = m.
Proof. destruct l as [| []]; reflexivity. Qed.

Lemma shr_fexp_bound m e l :
  0 <= m ->
  0 <= shr_m (fst (shr_fexp prec emax m e l)) <= m
  /\ (snd (shr_fexp prec emax m e l) = e
      \/ snd (shr_fexp prec emax m e l) = fexp prec emax (Zdigits2 m + e)).
Proof.
  intros Hm. unfold shr_fexp, shr.
  destruct (fexp prec emax (Zdigits2 m + e) - e) as [| n | n] eqn:E; cbn [fst snd].
  - rewrite shr_record_of_loc_m. split; [lia | by left].
  - split.
    + apply iter_pos_shr_1_bound. rewrite shr_record_of_loc_m. lia.
    + right. lia.
  - rewrite shr_record_of_loc_m. split; [lia | by left].
Qed.

Lemma round_nearest_even_bound m l :
  0 <= m -> 0 <= round_nearest_even m l <= m + 1.
Proof.
  intros Hm. unfold round_nearest_even.
  destruct l as [| []]; [lia | destruct (Z.even m); lia | lia | lia].
Qed.

Lemma fexp_le k : fexp prec emax k = Z.max (k - 53) (-1074).
Proof. reflexivity. Qed.

(** Rounding a mantissa below [2^54] at an exponent of at most 941 cannot
    overflow. *)
Lemma binary_round_aux_finite s m e l :
  0 <= m < 2 ^ 54 -> e <= 941 ->
  is_finite (binary_round_aux prec emax s m e l) = true.
Proof.
  intros Hm He. unfold binary_round_aux.
  pose proof (shr_fexp_bound m e l ltac:(lia)) as [Hm1 He1].
  destruct (shr_fexp prec emax m e l) as [mrs' e']. cbn [fst snd] in Hm1, He1.
  pose proof (Zdigits2_bound m 54 ltac:(lia) Hm) as Hd.
  rewrite fexp_le in He1.
  assert (He' : e' <= 942) by lia.
  pose proof (round_nearest_even_bound (shr_m mrs') (loc_of_shr_record mrs') ltac:(lia))
    as Hr.
  set (m1 := round_nearest_even (shr_m mrs') (loc_of_shr_record mrs')) in *.
  pose proof (shr_fexp_bound m1 e' loc_Exact ltac:(lia)) as [Hm2 He2].
  destruct (shr_fexp prec emax m1 e' loc_Exact) as [mrs'' e''].
  cbn [fst snd] in Hm2, He2.
  assert (Hd1 : Zdigits2 m1 <= 55).
  { apply Zdigits2_bound; [lia |]. change (2 ^ 55) with (2 * 2 ^ 54). lia. }
  rewrite fexp_le in He2.
  destruct (shr_m mrs'') as [| p | p]; [reflexivity | | lia].
  replace (e'' <=? emax - prec) with true; [reflexivity |].
  symmetry. apply Z.leb_le. unfold emax, prec. lia.
Qed.

Lemma div_core_bounds mx ex mz ez lz :
  bounded prec emax mx ex = true ->
  SFdiv_core_binary prec emax (Z.pos mx) ex (Z.pos one_billion_mantissa) (-23)
  = (mz, ez, lz) ->
  0 <= mz < 2 ^ 54 /\ ez <= 941.
Proof.
  unfold bounded, canonical_mantissa. intros Hb.
  apply andb_true_iff in Hb. destruct Hb as [Hc He].
  apply Z.eqb_eq in Hc. apply Z.leb_le in He.
  rewrite fexp_le in Hc. unfold emax, prec in He.
  pose proof (digits2_pos_lt mx) as Hlt.
  set (d1 := Z.pos (digits2_pos mx)) in *.
  assert (Hd1 : 1 <= d1 <= 53) by (unfold d1; lia).
  unfold SFdiv_core_binary.
  change (Zdigits2 (Z.pos mx)) with d1.
  change (Zdigits2 (Z.pos one_billion_mantissa)) with 53.
  rewrite fexp_le.
  set (e' := Z.min (Z.max (d1 + ex - (53 + -23) - 53) (-1074)) (ex - -23)).
  set (sh := ex - -23 - e').
  assert (Hsh : 0 <= sh <= 106 - d1) by (unfold sh, e'; lia).
  set (m' := match sh with
             | 0 => Z.pos mx
             | Z.pos _ => Z.shiftl (Z.pos mx) sh
             | Z.neg _ => 0
             end).
  assert (Hm' : 0 <= m' < 2 ^ 106).
  { assert (Hpow : Z.pos mx * 2 ^ sh < 2 ^ 106).
    { replace 106 with (d1 + (106 - d1)) by lia.
      rewrite Z.pow_add_r by lia.
      assert (0 < 2 ^ sh) by (apply Z.pow_pos_nonneg; lia).
      assert (2 ^ sh <= 2 ^ (106 - d1)) by (apply Z.pow_le_mono_r; lia).
      nia. }
    unfold m'. destruct sh as [| p | p] eqn:Esh.
    - simpl in Hpow. lia.
    - rewrite Z.shiftl_mul_pow2 by lia.
      split; [| exact Hpow]. apply Z.mul_nonneg_nonneg; [lia |].
      apply Z.pow_nonneg. lia.
    - lia. }
  destruct (Z.div_eucl m' (Z.pos one_billion_mantissa)) as [q r] eqn:Ediv.
  intros [= <- <- _].
  assert (Hq : q = m' / Z.pos one_billion_mantissa).
  { unfold Z.div. rewrite Ediv. reflexivity. }
  split; [| unfold e'; lia].
  subst q. split.
  - apply Z.div_pos; lia.
  - apply Z.div_lt_upper_bound; [lia |].
    change (2 ^ 106) with (4503599627370496 * 2 ^ 54) in Hm'.
    unfold one_billion_mantissa. lia.
Qed.

(** [billions] keeps finite binary64 values finite. *)
Lemma billions_finite x :
  is_binary64 x -> is_finite x = true -> is_finite (billions x) = true.
Proof.
  unfold is_binary64. intros Hv Hf.
  destruct x as [s | s | | s m e]; try discriminate; [reflexivity |].
  simpl in Hv. unfold billions, Float.div, one_billion, SFdiv.
  fold one_billion_mantissa.
  destruct (SFdiv_core_binary prec emax (Z.pos m) e (Z.pos one_billion_mantissa) (-23))
    as [[mz ez] lz] eqn:E.
  destruct (div_core_bounds _ _ _ _ _ Hv E) as [Hmz Hez].
  by apply binary_round_aux_finite.
Qed.

(** *** The rendering *)

Lemma format_abs_finite x :
  is_finite x = true ->
  format_comma_2f (Float.abs x) = fixed2 (cents (Float.abs x)).
Proof. destruct x as [s | s | | s m e]; try discriminate; reflexivity. Qed.

(** C7, as amended. For every finite delta, [format_billions] returns the
    sign (['+'] exactly when [delta >= 0], ['-'] otherwise), then ['$'], then
    the float [|delta / 1e9|] rounded to the nearest hundredth (ties to
    even) written with thousands separators and exactly two decimals, then
    [" B"]; the number scaled is the float quotient of [delta] by [10^9],
    and a zero delta, of either sign, gives ["+$0.00 B"].  For a delta
    that is not finite the number is written without digits: a NaN gives
    ["-$nan B"], the infinities give ["+$inf B"] and ["-$inf B"]. *)
Theorem format_billions_cases (delta : float) :
  is_binary64 delta ->
  billions delta = Float.div delta (Float.of_Z 1000000000)
  /\ (is_finite delta = true -> billions_rendering delta (format_billions delta))
  /\ match delta with
     | S754_zero _ => format_billions delta = "+$0.00 B"%string
     | S754_finite _ _ _ => is_finite (billions delta) = true
     | S754_nan => format_billions delta = "-$nan B"%string
     | S754_infinity false => format_billions delta = "+$inf B"%string
     | S754_infinity true => format_billions delta = "-$inf B"%string
     end.
Proof.
  intros Hv. split; [reflexivity |]. split.
  - intros Hf.
    pose proof (billions_finite delta Hv Hf) as Hb.
    unfold billions_rendering, format_billions.
    rewrite (format_abs_finite _ Hb).
    destruct (cents_spec (Float.abs (billions delta))) as [Hc Hn].
    destruct (fixed2_spec _ Hc) as (ip & d1 & d2 & Hfx & Hg & H1 & H2 & Hval).
    exists ip, d1, d2. rewrite Hfx, Hval.
    split; [| split; [exact Hg | split; [exact H1 | split; [exact H2 | exact Hn]]]].
    rewrite !append_assoc.
    destruct (Float.geb delta Float.zero); reflexivity.
  - destruct delta as [[] | [] | | s m e]; try reflexivity.
    by apply billions_finite.
Qed.

Lemma format_billions_cases_witness :
  is_binary64 Examples.today_debt
  /\ is_finite Examples.today_debt = true
  /\ billions_rendering Examples.today_debt (format_billions Examples.today_debt).
Proof.
  split; [reflexivity |]. split; [reflexivity |].
  apply (proj1 (proj2 (format_billions_cases Examples.today_debt eq_refl))).
  reflexivity.
Defined.

Lemma format_billions_examples :
  format_billions (Float.sub Examples.today_debt Examples.y_debt) = "+$5.00 B"%string
  /\ format_billions (Float.sub Examples.y_debt Examples.today_debt) = "-$5.00 B"%string
  /\ format_billions Examples.today_debt = "+$34,006.50 B"%string
  /\ format_billions (Float.of_Z 125000000) = "+$0.12 B"%string
  /\ format_billions (Float.of_Z (-1)) = "-$0.00 B"%string
  /\ format_billions (S754_infinity false) = "+$inf B"%string
  /\ format_billions S754_nan = "-$nan B"%string.
Proof. repeat split; vm_compute; reflexivity. Qed.

Lemma append_String a s t : String a s +:+ t = String a (s +:+ t).
Proof. reflexivity. Qed.

(** The claim fails for a delta that is not a number: [format_billions]
    gives ["-$nan B"], which has no digits at all. *)
Lemma nan_has_no_decimals :
  ~ billions_rendering S754_nan (format_billions S754_nan).
Proof.
  unfold billions_rendering. intros (ip & d1 & d2 & Heq & _).
  change (format_billions S754_nan) with "-$nan B"%string in Heq.
  injection Heq as Heq.
  change (EmptyString +:+ ip +:+ "." +:+ String d1 (String d2 " B"))
    with (ip +:+ "." +:+ String d1 (String d2 " B")) in Heq.
  destruct ip as [| a1 ip]; [discriminate |].
  rewrite append_String in Heq. injection Heq as _ Heq.
  destruct ip as [| a2 ip]; [discriminate |].
  rewrite append_String in Heq. injection Heq as _ Heq.
  destruct ip as [| a3 ip]; [discriminate |].
  rewrite append_String in Heq. injection Heq as _ Heq.
  destruct ip as [| a4 ip]; [discriminate |].
  rewrite append_String in Heq. injection Heq as _ Heq.
  destruct ip as [| a5 ip]; [discriminate |].
  rewrite append_String in Heq. injection Heq as _ Heq.
  destruct ip as [| a6 ip]; discriminate.
Qed.

(** * Further properties of the functions of [main.py] *)

(** ** [parse_debt] and [_request], case by case *)

(** X1. [parse_debt] has no effect on the outside.  It returns the amount
    and the date string exactly when the row has both fields and [float]
    accepts the amount.  Otherwise the first failure is reported: a missing
    amount ([KeyError]) before an amount that does not parse
    ([ValueError]), and that before a missing [record_date]. *)
Theorem parse_debt_cases (r : row) (w : World) :
  fst (parse_debt r w) = []
  /\ (forall amt dstr,
        snd (parse_debt r w) = Ok (amt, dstr) <->
        exists s, r !! "tot_pub_debt_out_amt" = Some s
                  /\ py_float w s = Some amt
                  /\ r !! "record_date" = Some dstr)
  /\ (r !! "tot_pub_debt_out_amt" = None ->
        snd (parse_debt r w) = Raise (KeyError "tot_pub_debt_out_amt"))
  /\ (forall s, r !! "tot_pub_debt_out_amt" = Some s -> py_float w s = None ->
        snd (parse_debt r w) = Raise (ValueError s))
  /\ (forall s amt, r !! "tot_pub_debt_out_amt" = Some s -> py_float w s = Some amt ->
        r !! "record_date" = None ->
        snd (parse_debt r w) = Raise (KeyError "record_date")).
Proof.
  split; [apply parse_debt_trace |].
  unfold parse_debt, bind, getitem, of_option.
  destruct (r !! "tot_pub_debt_out_amt") as [s |] eqn:Ha; simpl.
  - destruct (py_float w s) as [amt |] eqn:Hf.
    + destruct (r !! "record_date") as [dstr |] eqn:Hd; simpl.
      * split; [| repeat split; intros; congruence].
        intros amt' dstr'. split.
        -- intros [= <- <-]. by exists s.
        -- intros (s' & [= <-] & Hf' & [= <-]). congruence.
      * split; [| repeat split; intros; congruence].
        intros amt' dstr'. split; [discriminate |].
        intros (s' & _ & _ & Hd'). discriminate.
    + simpl. split; [| repeat split; intros; congruence].
      intros amt' dstr'. split; [discriminate |].
      intros (s' & [= <-] & Hf' & _). congruence.
  - split; [| repeat split; intros; congruence].
    intros amt' dstr'. split; [discriminate |].
    intros (s' & Hs' & _). discriminate.
Qed.

(** X2. [_request] issues exactly one GET to [BASE_URL], whatever comes
    back.  A 4xx or 5xx status raises [HTTPError] whatever the body holds;
    a row is returned exactly when the status is no error and the JSON has a
    non-empty [data] list, and the row is the first of the list; a missing
    [data] entry is the same [RuntimeError] as an empty list. *)
Theorem request_cases (p : params) (w : World) :
  fst (_request p w) = [Get BASE_URL p]
  /\ (forall resp, requests_get w BASE_URL p = Answered resp ->
        400 <= status_code resp < 600 ->
        snd (_request p w) = Raise (HTTPError (status_code resp)))
  /\ (forall first,
        snd (_request p w) = Ok first <->
        exists resp b rest,
          requests_get w BASE_URL p = Answered resp
          /\ ~ 400 <= status_code resp < 600
          /\ json resp = Some b
          /\ b !! "data" = Some (first :: rest))
  /\ (forall resp b, requests_get w BASE_URL p = Answered resp ->
        ~ 400 <= status_code resp < 600 ->
        json resp = Some b ->
        b !! "data" = None \/ b !! "data" = Some [] ->
        snd (_request p w) = Raise (RuntimeError (NoDataReturned p))).
Proof.
  split; [apply request_trace |].
  rewrite request_result.
  destruct (requests_get w BASE_URL p) as [resp | detail].
  2: { split; [intros ? [=] |]. split; [| intros ? ? [=]].
       intros first. split; [discriminate | intros (? & ? & ? & [=] & _)]. }
  destruct ((400 <=? status_code resp) && (status_code resp <? 600)) eqn:Hst.
  - apply andb_true_iff in Hst. destruct Hst as [H1 H2].
    apply Z.leb_le in H1. apply Z.ltb_lt in H2.
    split; [intros ? [= <-] _; reflexivity |]. split.
    + intros first. split; [discriminate |].
      intros (resp' & b & rest & [= <-] & Hno & _). lia.
    + intros resp' b [= <-] Hno. lia.
  - assert (Hnot : ~ 400 <= status_code resp < 600).
    { intros [H1 H2]. apply Z.leb_le in H1. apply Z.ltb_lt in H2.
      rewrite H1, H2 in Hst. discriminate. }
    split; [intros ? [= <-] Herr; contradiction |].
    destruct (json resp) as [b |] eqn:Hj.
    + destruct (b !! "data") as [[| first rest] |] eqn:Hdata; simpl.
      * split; [| reflexivity].
        intros f. split; [discriminate |].
        intros (resp' & b' & rest' & [= <-] & _ & Hj' & Hd').
        rewrite Hj in Hj'. injection Hj' as <-. congruence.
      * split.
        -- intros f. split.
           ++ intros [= <-]. by exists resp, b, rest.
           ++ intros (resp' & b' & rest' & [= <-] & _ & Hj' & Hd').
              rewrite Hj in Hj'. injection Hj' as <-. congruence.
        -- intros resp' b' [= <-] _ Hj' [Hd' | Hd'];
             rewrite Hj in Hj'; injection Hj' as <-; congruence.
      * split; [| reflexivity].
        intros f. split; [discriminate |].
        intros (resp' & b' & rest' & [= <-] & _ & Hj' & Hd').
        rewrite Hj in Hj'. injection Hj' as <-. congruence.
    + split.
      * intros f. split; [discriminate |].
        intros (resp' & b' & rest' & [= <-] & _ & Hj' & _). congruence.
      * intros resp' b' [= <-] _ Hj'. congruence.
Qed.

(** ** [post_to_x], case by case *)

Lemma truthy_false v : truthy v = false <-> v = None \/ v = Some EmptyString.
Proof.
  destruct v as [s |]; simpl.
  - destruct (String.eqb s EmptyString) eqn:E; simpl.
    + apply String.eqb_eq in E. subst s. split; [by right | reflexivity].
    + split; [discriminate |]. intros [H | [= ->]]; [discriminate |].
      discriminate.
  - split; [by left | reflexivity].
Qed.

(** X3. [post_to_x] refuses to post, raising its [RuntimeError] with
    nothing sent, exactly when one of the four credentials is unset or is
    the empty string. *)
Theorem post_to_x_refuses_iff (tweet : string) (w : World) :
  post_to_x tweet w = ([], Raise (RuntimeError MissingCredentials))
  <-> exists k, In k CREDENTIALS
                /\ (environ w !! k = None \/ environ w !! k = Some EmptyString).
Proof.
  rewrite post_unfold. split.
  - destruct (credentials_present w) eqn:Hc; [discriminate |]. intros _.
    unfold credentials_present, CREDENTIALS in Hc. cbn [forallb] in Hc.
    destruct (truthy (environ w !! "X_API_KEY")) eqn:H1.
    2: { exists "X_API_KEY"%string. split; [simpl; tauto | by apply truthy_false]. }
    destruct (truthy (environ w !! "X_API_SECRET")) eqn:H2.
    2: { exists "X_API_SECRET"%string. split; [simpl; tauto | by apply truthy_false]. }
    destruct (truthy (environ w !! "X_ACCESS_TOKEN")) eqn:H3.
    2: { exists "X_ACCESS_TOKEN"%string. split; [simpl; tauto | by apply truthy_false]. }
    destruct (truthy (environ w !! "X_ACCESS_TOKEN_SECRET")) eqn:H4.
    2: { exists "X_ACCESS_TOKEN_SECRET"%string.
         split; [simpl; tauto | by apply truthy_false]. }
    discriminate.
  - intros (k & Hk & Hv). apply truthy_false in Hv.
    by rewrite (credentials_present_false w k Hk Hv).
Qed.

(** X4. With the four credentials set and not empty, [post_to_x] issues
    exactly one POST, to the tweets endpoint, carrying the text unchanged
    and the four values of the environment.  It returns the decoded JSON
    exactly when the answer has no 4xx or 5xx status and is JSON; an error
    status raises a [RuntimeError] that carries the status and the body of
    the answer, and an exception of the library is passed on. *)
Theorem post_to_x_cases (tweet : string) (w : World) :
  credentials_present w = true ->
  fst (post_to_x tweet w) = [Post TWEETS_URL tweet (auth_of w)]
  /\ (forall k, In k CREDENTIALS -> exists v, environ w !! k = Some v /\ v <> EmptyString)
  /\ (forall j,
        snd (post_to_x tweet w) = Ok j <->
        exists resp, requests_post w TWEETS_URL tweet (auth_of w) = Answered resp
                     /\ ~ 400 <= status_code resp < 600
                     /\ json resp = Some j)
  /\ (forall resp, requests_post w TWEETS_URL tweet (auth_of w) = Answered resp ->
        400 <= status_code resp < 600 ->
        snd (post_to_x tweet w)
        = Raise (RuntimeError (PostFailed (status_code resp) (text resp))))
  /\ (forall detail, requests_post w TWEETS_URL tweet (auth_of w) = Failed detail ->
        snd (post_to_x tweet w) = Raise (RequestException detail)).
Proof.
  intros Hc. rewrite post_unfold, Hc. cbn [fst snd].
  split; [reflexivity |]. split.
  { intros k Hk. unfold credentials_present in Hc.
    rewrite forallb_forall in Hc. specialize (Hc k Hk).
    destruct (environ w !! k) as [v |]; [| discriminate].
    exists v. split; [reflexivity |]. intros ->. discriminate. }
  destruct (requests_post w TWEETS_URL tweet (auth_of w)) as [resp | detail].
  2: { split; [| split; [intros ? [=] | intros ? [= <-]; reflexivity]].
       intros j. split; [discriminate | intros (? & [=] & _)]. }
  destruct ((400 <=? status_code resp) && (status_code resp <? 600)) eqn:Hst.
  - apply andb_true_iff in Hst. destruct Hst as [H1 H2].
    apply Z.leb_le in H1. apply Z.ltb_lt in H2.
    split; [| split; [intros ? [= <-] _; reflexivity | intros ? [=]]].
    intros j. split; [discriminate |].
    intros (resp' & [= <-] & Hno & _). lia.
  - assert (Hnot : ~ 400 <= status_code resp < 600).
    { intros [H1 H2]. apply Z.leb_le in H1. apply Z.ltb_lt in H2.
      rewrite H1, H2 in Hst. discriminate. }
    split; [| split; [intros ? [= <-] Herr; contradiction | intros ? [=]]].
    intros j. destruct (json resp) as [j0 |] eqn:Hj.
    + split.
      * intros [= <-]. by exists resp.
      * intros (resp' & [= <-] & _ & Hj'). congruence.
    + split; [discriminate |].
      intros (resp' & [= <-] & _ & Hj'). congruence.
Qed.

Lemma post_to_x_cases_witness :
  credentials_present Examples.forbidden_world = true
  /\ fst (post_to_x "text" Examples.forbidden_world)
     = [Post TWEETS_URL "text" (auth_of Examples.forbidden_world)]
  /\ snd (post_to_x "text" Examples.forbidden_world)
     = Raise (RuntimeError (PostFailed 403 "Forbidden")).
Proof.
  split; [reflexivity |].
  destruct (post_to_x_cases "text" Examples.forbidden_world eq_refl)
    as (Ht & _ & _ & Herr & _).
  split; [exact Ht |].
  apply (Herr {| status_code := 403; text := "Forbidden"; json := None |} eq_refl).
  simpl. lia.
Defined.

(** ** Stale data *)

(** X5. When the latest record is more than [MAX_STALE_DAYS] days old,
    [build_tweet_text] stops at once: it has issued the first GET only, no
    request for an earlier record follows, and the [RuntimeError] carries
    the record's date string and its age in days. *)
Theorem stale_data_stops_the_build
  (w : World) (latest_row : row) (today_debt : float) (today_str : string) (d : Z) :
  snd (fetch_latest_debt_row w) = Ok latest_row ->
  snd (parse_debt latest_row w) = Ok (today_debt, today_str) ->
  dateparser_parse w today_str = Some d ->
  MAX_STALE_DAYS < date_today w - d ->
  build_tweet_text w
  = ([Get BASE_URL latest_params],
     Raise (RuntimeError (StaleData today_str (date_today w - d)))).
Proof.
  intros Hf Hp Hd Hs. apply Z.ltb_lt in Hs.
  rewrite build_unfold, Hf, Hp, Hd, Hs. reflexivity.
Qed.

Lemma four_days_later_row :
  snd (fetch_latest_debt_row Examples.four_days_later) = Ok Examples.latest_row.
Proof. vm_compute. reflexivity. Qed.

Lemma four_days_later_parse :
  snd (parse_debt Examples.latest_row Examples.four_days_later)
  = Ok (Examples.today_debt, "2024-01-05"%string).
Proof. vm_compute. reflexivity. Qed.

Lemma stale_data_stops_the_build_witness :
  snd (fetch_latest_debt_row Examples.four_days_later) = Ok Examples.latest_row
  /\ snd (parse_debt Examples.latest_row Examples.four_days_later)
     = Ok (Examples.today_debt, "2024-01-05"%string)
  /\ dateparser_parse Examples.four_days_later "2024-01-05" = Some 738890
  /\ MAX_STALE_DAYS < date_today Examples.four_days_later - 738890
  /\ build_tweet_text Examples.four_days_later
     = ([Get BASE_URL latest_params],
        Raise (RuntimeError (StaleData "2024-01-05" 4))).
Proof.
  split; [exact four_days_later_row |].
  split; [exact four_days_later_parse |].
  split; [reflexivity |]. split; [reflexivity |].
  apply (stale_data_stops_the_build Examples.four_days_later Examples.latest_row
           Examples.today_debt "2024-01-05" 738890
           four_days_later_row four_days_later_parse eq_refl).
  reflexivity.
Defined.

(** ** What [main] prints, posts and logs *)

Lemma build_only_gets w : only_gets (fst (build_tweet_text w)).
Proof.
  destruct (build_calls w) as (d & n & _ & Ht & _). rewrite Ht.
  unfold only_gets, get_latest, get_on_or_before.
  destruct n as [| [| [| [| n]]]]; simpl; repeat constructor; by do 2 eexists.
Qed.

Lemma only_gets_In t ev : only_gets t -> In ev t -> exists url p, ev = Get url p.
Proof. unfold only_gets. rewrite List.Forall_forall. intros H Hin. by apply H. Qed.

Lemma tweet_of_head a b c d e :
  exists rest, tweet_of a b c d e = String "195"%char rest.
Proof. unfold tweet_of. eexists. reflexivity. Qed.

(** The four ways a run of [main] can go. *)
Lemma main_shapes w :
  (exists t e, only_gets t
     /\ build_tweet_text w = (t, Raise e)
     /\ main w = (t ++ [LogError Build e], Raise (SystemExit 1)))
  \/ (exists t tweet, only_gets t
        /\ build_tweet_text w = (t, Ok tweet)
        /\ dry_run_enabled w = true
        /\ main w = (t ++ preview tweet ++ [Print DRY_RUN_NOTICE], Ok tt))
  \/ (exists t tweet resp, only_gets t
        /\ build_tweet_text w = (t, Ok tweet)
        /\ dry_run_enabled w = false
        /\ post_to_x tweet w = ([Post TWEETS_URL tweet (auth_of w)], Ok resp)
        /\ main w = (t ++ preview tweet ++ [Post TWEETS_URL tweet (auth_of w)]
                       ++ [Print SUCCESS_NOTICE; PrintResponse resp], Ok tt))
  \/ (exists t tweet t2 e, only_gets t
        /\ build_tweet_text w = (t, Ok tweet)
        /\ dry_run_enabled w = false
        /\ post_to_x tweet w = (t2, Raise e)
        /\ (t2 = [] \/ t2 = [Post TWEETS_URL tweet (auth_of w)])
        /\ main w = (t ++ preview tweet ++ t2 ++ [LogError Publish e],
                     Raise (SystemExit 1))).
Proof.
  pose proof (build_only_gets w) as Hg. rewrite main_unfold.
  destruct (build_tweet_text w) as [t [tweet | e]]; cbn [fst] in Hg.
  2: { left. by exists t, e. }
  right. destruct (dry_run_enabled w) eqn:Hd.
  { left. by exists t, tweet. }
  right. unfold publish_path.
  pose proof (post_unfold tweet w) as Hp.
  destruct (credentials_present w).
  - destruct (post_to_x tweet w) as [t2 [resp | e]] eqn:Ep; injection Hp as -> Hr.
    + left. exists t, tweet, resp.
      split; [exact Hg |]. split; [reflexivity |]. split; [reflexivity |].
      split; [exact Ep | reflexivity].
    + right. exists t, tweet, [Post TWEETS_URL tweet (auth_of w)], e.
      split; [exact Hg |]. split; [reflexivity |]. split; [reflexivity |].
      split; [exact Ep |]. split; [by right | reflexivity].
  - right. exists t, tweet, [], (RuntimeError MissingCredentials).
    split; [exact Hg |]. split; [reflexivity |]. split; [reflexivity |].
    split; [exact Hp |]. split; [by left |]. rewrite Hp. reflexivity.
Qed.

(** X6. Whatever [main] posts is the text it has just shown: a POST in the
    trace goes to the tweets endpoint with the credentials of the
    environment, its payload is the text that [build_tweet_text] returned,
    the run is no dry run, and the three preview lines stand right before
    the POST. *)
Theorem posted_text_is_previewed (w : World) (url payload : string) (auth : OAuth1) :
  In (Post url payload auth) (fst (main w)) ->
  url = TWEETS_URL
  /\ auth = auth_of w
  /\ dry_run_enabled w = false
  /\ exists t after,
       build_tweet_text w = (t, Ok payload)
       /\ fst (main w) = t ++ preview payload ++ Post url payload auth :: after.
Proof.
  intros Hin.
  destruct (main_shapes w) as
    [(t & e & Hg & Hb & Hm) | [(t & tweet & Hg & Hb & Hd & Hm)
    | [(t & tweet & resp & Hg & Hb & Hd & Hp & Hm)
    | (t & tweet & t2 & e & Hg & Hb & Hd & Hp & Ht2 & Hm)]]];
    rewrite Hm in Hin |- *; cbn [fst] in Hin |- *.
  - exfalso. apply in_app_iff in Hin. destruct Hin as [Hin | Hin].
    + destruct (only_gets_In _ _ Hg Hin) as (? & ? & [=]).
    + simpl in Hin. intuition discriminate.
  - exfalso. apply in_app_iff in Hin. destruct Hin as [Hin | Hin].
    + destruct (only_gets_In _ _ Hg Hin) as (? & ? & [=]).
    + simpl in Hin. intuition discriminate.
  - apply in_app_iff in Hin. destruct Hin as [Hin | Hin].
    + destruct (only_gets_In _ _ Hg Hin) as (? & ? & [=]).
    + simpl in Hin.
      destruct Hin as [[=] | [[=] | [[=] | [[= <- <- <-] | [[=] | [[=] | []]]]]]].
      repeat split; [exact Hd |]. exists t. eexists. split; [exact Hb | reflexivity].
  - apply in_app_iff in Hin. destruct Hin as [Hin | Hin].
    + destruct (only_gets_In _ _ Hg Hin) as (? & ? & [=]).
    + destruct Ht2 as [-> | ->]; simpl in Hin.
      * exfalso. intuition discriminate.
      * destruct Hin as [[=] | [[=] | [[=] | [[= <- <- <-] | [[=] | []]]]]].
        repeat split; [exact Hd |]. exists t. eexists.
        split; [exact Hb | reflexivity].
Qed.

Lemma posted_text_is_previewed_witness :
  exists payload,
    In (Post TWEETS_URL payload (auth_of Examples.world)) (fst (main Examples.world))
    /\ dry_run_enabled Examples.world = false
    /\ snd (build_tweet_text Examples.world) = Ok payload.
Proof.
  exists (tweet_of Examples.today_debt Examples.y_debt Examples.w_debt
            (Float.sub Examples.today_debt Examples.y_debt)
            (Float.sub Examples.today_debt Examples.w_debt)).
  assert (Hin : In (Post TWEETS_URL
                      (tweet_of Examples.today_debt Examples.y_debt Examples.w_debt
                         (Float.sub Examples.today_debt Examples.y_debt)
                         (Float.sub Examples.today_debt Examples.w_debt))
                      (auth_of Examples.world)) (fst (main Examples.world))).
  { vm_compute. do 6 right. left. reflexivity. }
  split; [exact Hin |].
  destruct (posted_text_is_previewed Examples.world _ _ _ Hin)
    as (_ & _ & Hd & t & after & Hb & _).
  split; [exact Hd |]. rewrite Hb. reflexivity.
Defined.

Lemma built_text_is_no_notice w t tweet :
  build_tweet_text w = (t, Ok tweet) -> tweet <> SUCCESS_NOTICE.
Proof.
  intros Hb Heq.
  destruct (build_returns_fetched w tweet) as (d & a0 & a1 & a2 & _ & _ & Ht).
  { by rewrite Hb. }
  destruct (tweet_of_head a0 a1 a2 (Float.sub a0 a1) (Float.sub a0 a2)) as [rest Hrest].
  rewrite Ht, Hrest in Heq. discriminate.
Qed.

(** X7. The log tells the outcome.  A run that ends with status 0 has
    logged no error; a run that ends with status 1 has an error log as its
    very last event; and the success notice is printed only in a run that
    did post and ends with status 0. *)
Theorem logs_match_outcome (w : World) :
  (exit_code (snd (main w)) = 0 <->
     forall s e, ~ In (LogError s e) (fst (main w)))
  /\ (exit_code (snd (main w)) = 1 <->
        exists s e, last (fst (main w)) = Some (LogError s e))
  /\ (In (Print SUCCESS_NOTICE) (fst (main w)) ->
        exit_code (snd (main w)) = 0 /\ posts (fst (main w))).
Proof.
  destruct (main_shapes w) as
    [(t & e & Hg & Hb & Hm) | [(t & tweet & Hg & Hb & Hd & Hm)
    | [(t & tweet & resp & Hg & Hb & Hd & Hp & Hm)
    | (t & tweet & t2 & e & Hg & Hb & Hd & Hp & Ht2 & Hm)]]];
    rewrite Hm; cbn [fst snd exit_code].
  - split; [| split].
    + split; [discriminate |]. intros H. exfalso. apply (H Build e).
      apply in_app_iff. right. by left.
    + split; [| reflexivity]. intros _. exists Build, e. by rewrite last_snoc.
    + intros Hin. exfalso. apply in_app_iff in Hin. destruct Hin as [Hin | Hin].
      * destruct (only_gets_In _ _ Hg Hin) as (? & ? & [=]).
      * simpl in Hin. intuition discriminate.
  - split; [| split].
    + split; [| reflexivity]. intros _ s e Hin.
      apply in_app_iff in Hin. destruct Hin as [Hin | Hin].
      * destruct (only_gets_In _ _ Hg Hin) as (? & ? & [=]).
      * simpl in Hin. intuition discriminate.
    + split; [discriminate |]. intros (s & e & Hl).
      rewrite !app_assoc, last_snoc in Hl. discriminate.
    + intros Hin. exfalso. apply in_app_iff in Hin. destruct Hin as [Hin | Hin].
      * destruct (only_gets_In _ _ Hg Hin) as (? & ? & [=]).
      * simpl in Hin.
        destruct Hin as [[=] | [[= Heq] | [[=] | [[=] | []]]]].
        by apply (built_text_is_no_notice w t tweet Hb).
  - split; [| split].
    + split; [| reflexivity]. intros _ s e Hin.
      apply in_app_iff in Hin. destruct Hin as [Hin | Hin].
      * destruct (only_gets_In _ _ Hg Hin) as (? & ? & [=]).
      * simpl in Hin. intuition discriminate.
    + split; [discriminate |]. intros (s & e & Hl).
      change [Print SUCCESS_NOTICE; PrintResponse resp]
        with ([Print SUCCESS_NOTICE] ++ [PrintResponse resp]) in Hl.
      rewrite !app_assoc, last_snoc in Hl. discriminate.
    + intros _. split; [reflexivity |].
      exists TWEETS_URL, tweet, (auth_of w).
      apply in_app_iff. right. simpl. tauto.
  - split; [| split].
    + split; [discriminate |]. intros H. exfalso. apply (H Publish e).
      rewrite !app_assoc. apply in_app_iff. right. by left.
    + split; [| reflexivity]. intros _. exists Publish, e.
      by rewrite !app_assoc, last_snoc.
    + intros Hin. exfalso. apply in_app_iff in Hin. destruct Hin as [Hin | Hin].
      * destruct (only_gets_In _ _ Hg Hin) as (? & ? & [=]).
      * destruct Ht2 as [-> | ->]; simpl in Hin.
        -- destruct Hin as [[=] | [[= Heq] | [[=] | [[=] | []]]]].
           by apply (built_text_is_no_notice w t tweet Hb).
        -- destruct Hin as [[=] | [[= Heq] | [[=] | [[=] | [[=] | []]]]]].
           by apply (built_text_is_no_notice w t tweet Hb).
Qed.

(** ** What a dry run does not need *)

Lemma request_same_source p w w' :
  same_data_source w w' -> _request p w' = _request p w.
Proof.
  intros (Hget & _). rewrite (request_eq p w'), (request_eq p w), !request_result, Hget.
  reflexivity.
Qed.

Lemma parse_debt_same_source r w w' :
  same_data_source w w' -> parse_debt r w' = parse_debt r w.
Proof.
  intros (_ & _ & Hfl & _). unfold parse_debt, bind, getitem, of_option.
  destruct (r !! "tot_pub_debt_out_amt") as [a |]; [| reflexivity]. simpl.
  rewrite Hfl. destruct (py_float w a); [| reflexivity].
  destruct (r !! "record_date"); reflexivity.
Qed.

Lemma after_guard_same_source w w' a d :
  same_data_source w w' -> after_guard w' a d = after_guard w a d.
Proof.
  intros Hs. unfold after_guard, fetch_debt_on_or_before.
  destruct (Date.sub_days d 1) as [yt |]; [| reflexivity].
  rewrite (request_same_source _ w w' Hs).
  destruct (snd (_request _ w)) as [r1 | e1]; [| reflexivity].
  rewrite (parse_debt_same_source _ w w' Hs).
  destruct (snd (parse_debt r1 w)) as [[y_debt y_str] | e2]; [| reflexivity].
  destruct (Date.sub_days d 7) as [wt |]; [| reflexivity].
  rewrite (request_same_source _ w w' Hs).
  destruct (snd (_request _ w)) as [r2 | e3]; [| reflexivity].
  rewrite (parse_debt_same_source _ w w' Hs). reflexivity.
Qed.

Lemma build_same_source w w' :
  same_data_source w w' -> build_tweet_text w' = build_tweet_text w.
Proof.
  intros Hs. rewrite (build_unfold w'), (build_unfold w).
  unfold fetch_latest_debt_row.
  rewrite (request_same_source _ w w' Hs).
  destruct (snd (_request latest_params w)) as [r0 | e0]; [| reflexivity].
  rewrite (parse_debt_same_source _ w w' Hs).
  destruct (snd (parse_debt r0 w)) as [[today_debt today_str] | e1]; [| reflexivity].
  destruct Hs as (Hget & Hday & Hfl & Hdp).
  rewrite Hdp, Hday.
  destruct (dateparser_parse w today_str) as [d |]; [| reflexivity].
  rewrite (after_guard_same_source w w' today_debt d); [reflexivity |].
  by repeat split.
Qed.

(** X8. [build_tweet_text] reads neither the environment nor the posting
    service: two worlds with the same answers of the dataset, the same
    clock and the same parsers build alike.  So a dry run needs no
    credential: with [DRY_RUN=1] on both sides, the whole run of [main] is
    the same whatever the credentials and the posting service are. *)
Theorem dry_run_needs_no_credentials (w w' : World) :
  same_data_source w w' ->
  build_tweet_text w' = build_tweet_text w
  /\ (environ w !! "DRY_RUN" = Some "1"%string ->
      environ w' !! "DRY_RUN" = Some "1"%string ->
      main w' = main w).
Proof.
  intros Hs. pose proof (build_same_source w w' Hs) as Hb.
  split; [exact Hb |]. intros Hd Hd'.
  apply dry_run_enabled_iff in Hd. apply dry_run_enabled_iff in Hd'.
  rewrite (main_unfold w'), (main_unfold w), Hb, Hd, Hd'. reflexivity.
Qed.

Lemma dry_run_needs_no_credentials_witness :
  same_data_source Examples.dry_world Examples.bare_dry_world
  /\ environ Examples.dry_world !! "DRY_RUN" = Some "1"%string
  /\ environ Examples.bare_dry_world !! "DRY_RUN" = Some "1"%string
  /\ credentials_present Examples.bare_dry_world = false
  /\ main Examples.bare_dry_world = main Examples.dry_world.
Proof.
  assert (Hs : same_data_source Examples.dry_world Examples.bare_dry_world)
    by (repeat split; reflexivity).
  split; [exact Hs |]. split; [reflexivity |]. split; [reflexivity |].
  split; [reflexivity |].
  apply (dry_run_needs_no_credentials Examples.dry_world Examples.bare_dry_world Hs);
    reflexivity.
Defined.

(** ** Scaling and rendering *)

(** X9. Dividing by a billion neither creates nor removes an infinity or a
    NaN: for every binary64 value, [billions x] is finite exactly when [x]
    is; in particular it never overflows. *)
Theorem billions_finite_iff (x : float) :
  is_binary64 x -> is_finite (billions x) = is_finite x.
Proof.
  intros Hv. destruct (is_finite x) eqn:Hf.
  - by apply billions_finite.
  - destruct x as [s | [] | | s m e]; try discriminate; reflexivity.
Qed.

Lemma billions_finite_iff_witness :
  is_binary64 (SFmax_float prec emax)
  /\ is_finite (billions (SFmax_float prec emax)) = true.
Proof.
  split; [reflexivity |].
  rewrite (billions_finite_iff (SFmax_float prec emax)); reflexivity.
Defined.

Lemma abs_binary_round_aux s s' m e l :
  Float.abs (binary_round_aux prec emax s m e l)
  = Float.abs (binary_round_aux prec emax s' m e l).
Proof.
  unfold binary_round_aux.
  destruct (shr_fexp prec emax m e l) as [mrs' e'].
  destruct (shr_fexp prec emax _ e' loc_Exact) as [mrs'' e''].
  destruct (shr_m mrs''); [reflexivity | | reflexivity].
  destruct (e'' <=? emax - prec); reflexivity.
Qed.

Lemma abs_billions_opp x :
  Float.abs (billions (SFopp x)) = Float.abs (billions x).
Proof.
  destruct x as [s | s | | s m e]; try reflexivity.
  unfold billions, Float.div, SFdiv, SFopp, one_billion.
  destruct (SFdiv_core_binary prec emax (Z.pos m) e _ _) as [[mz ez] lz].
  apply abs_binary_round_aux.
Qed.

(** X10. The rendering of the opposite delta differs in the sign character
    only: [format_billions (-delta)] and [format_billions delta] carry the
    same digits, and for a delta that is neither zero nor a NaN the two
    signs are opposite. *)
Theorem format_billions_opp (delta : float) :
  exists digits,
    format_billions delta = String (sign_char delta) digits
    /\ format_billions (SFopp delta) = String (sign_char (SFopp delta)) digits
    /\ (match delta with
        | S754_finite _ _ _ | S754_infinity _ => sign_char (SFopp delta) <> sign_char delta
        | S754_zero _ => sign_char (SFopp delta) = "+"%char /\ sign_char delta = "+"%char
        | S754_nan => sign_char (SFopp delta) = "-"%char /\ sign_char delta = "-"%char
        end).
Proof.
  exists ("$" +:+ format_comma_2f (Float.abs (billions delta)) +:+ " B").
  unfold format_billions, sign_char. rewrite abs_billions_opp.
  split; [| split].
  - destruct (Float.geb delta Float.zero); reflexivity.
  - destruct (Float.geb (SFopp delta) Float.zero); reflexivity.
  - destruct delta as [[] | [] | | [] m e]; simpl; try discriminate; by split.
Qed.

Lemma format_comma_2f_finite x :
  is_finite x = true -> amount_rendering x (format_comma_2f x).
Proof.
  intros Hf. unfold amount_rendering.
  assert (Hfmt : format_comma_2f x = sign_prefix (sign_bit x) +:+ fixed2 (cents x)).
  { destruct x as [s | s | | s m e]; try discriminate; reflexivity. }
  destruct (cents_spec x) as [Hc Hn].
  destruct (fixed2_spec _ Hc) as (ip & d1 & d2 & Hfx & Hg & H1 & H2 & Hval).
  exists ip, d1, d2. rewrite Hfmt, Hfx, Hval.
  split; [reflexivity |].
  split; [exact Hg | split; [exact H1 | split; [exact H2 | exact Hn]]].
Qed.

Lemma tweet_contains_amounts today_debt y_debt w_debt daily_inc weekly_inc :
  contains ("Today: $" +:+ format_comma_2f today_debt +:+ LF)
    (tweet_of today_debt y_debt w_debt daily_inc weekly_inc)
  /\ contains ("Yesterday: $" +:+ format_comma_2f y_debt +:+ LF)
       (tweet_of today_debt y_debt w_debt daily_inc weekly_inc)
  /\ contains ("1 Week Ago: $" +:+ format_comma_2f w_debt +:+ LF)
       (tweet_of today_debt y_debt w_debt daily_inc weekly_inc).
Proof.
  unfold tweet_of, contains. split; [| split].
  - do 3 apply contains_prefix.
    eexists "ðŸ’° "%string, _. rewrite !append_assoc. reflexivity.
  - do 6 apply contains_prefix.
    eexists "ðŸ“… "%string, _. rewrite !append_assoc. reflexivity.
  - do 9 apply contains_prefix.
    eexists "ðŸ—“ï¸ "%string, _. rewrite !append_assoc. reflexivity.
Qed.

(** X11. Each amount of the tweet is written to the cent.  The text that
    [build_tweet_text] returns carries, after ["Today: $"],
    ["Yesterday: $"] and ["1 Week Ago: $"], the three amounts that the run
    fetched; each finite amount is written as an optional minus sign, the
    integer part with a comma between groups of three digits, a point and
    exactly two decimals, and the number written is the amount rounded to
    the nearest hundredth (ties to the even one). *)
Theorem amounts_written_to_the_cent (w : World) (text : string) :
  snd (build_tweet_text w) = Ok text ->
  exists d today_debt y_debt w_debt today_s y_s w_s,
    fetched w d today_debt y_debt w_debt
    /\ contains ("Today: $" +:+ today_s +:+ LF) text
    /\ contains ("Yesterday: $" +:+ y_s +:+ LF) text
    /\ contains ("1 Week Ago: $" +:+ w_s +:+ LF) text
    /\ (is_finite today_debt = true -> amount_rendering today_debt today_s)
    /\ (is_finite y_debt = true -> amount_rendering y_debt y_s)
    /\ (is_finite w_debt = true -> amount_rendering w_debt w_s).
Proof.
  intros Hb.
  destruct (build_returns_fetched w text Hb) as (d & a0 & a1 & a2 & Hf & _ & ->).
  destruct (tweet_contains_amounts a0 a1 a2 (Float.sub a0 a1) (Float.sub a0 a2))
    as (H0 & H1 & H2).
  exists d, a0, a1, a2, (format_comma_2f a0), (format_comma_2f a1), (format_comma_2f a2).
  split; [exact Hf |].
  split; [exact H0 |]. split; [exact H1 |]. split; [exact H2 |].
  split; [| split]; apply format_comma_2f_finite.
Qed.

Lemma example_world_text :
  snd (build_tweet_text Examples.world)
  = Ok (tweet_of Examples.today_debt Examples.y_debt Examples.w_debt
          (Float.sub Examples.today_debt Examples.y_debt)
          (Float.sub Examples.today_debt Examples.w_debt)).
Proof. vm_compute. reflexivity. Qed.

Lemma amounts_written_to_the_cent_witness :
  snd (build_tweet_text Examples.world)
  = Ok (tweet_of Examples.today_debt Examples.y_debt Examples.w_debt
          (Float.sub Examples.today_debt Examples.y_debt)
          (Float.sub Examples.today_debt Examples.w_debt))
  /\ exists today_debt today_s,
       contains ("Today: $" +:+ today_s +:+ LF)
         (tweet_of Examples.today_debt Examples.y_debt Examples.w_debt
            (Float.sub Examples.today_debt Examples.y_debt)
            (Float.sub Examples.today_debt Examples.w_debt))
       /\ (is_finite today_debt = true -> amount_rendering today_debt today_s).
Proof.
  split; [exact example_world_text |].
  destruct (amounts_written_to_the_cent Examples.world _ example_world_text)
    as (d & a0 & a1 & a2 & s0 & s1 & s2 & _ & H0 & _ & _ & Hr & _).
  by exists a0, s0.
Defined.

(** ** The sign of a delta *)

Lemma digits2_pos_ge p : 2 ^ (Z.pos (digits2_pos p) - 1) <= Z.pos p.
Proof.
  induction p as [p IH | p IH |]; cbn [digits2_pos].
  - rewrite Pos2Z.inj_succ. replace (Z.succ (Z.pos (digits2_pos p)) - 1)
      with (Z.succ (Z.pos (digits2_pos p) - 1)) by lia.
    rewrite Z.pow_succ_r by lia. lia.
  - rewrite Pos2Z.inj_succ. replace (Z.succ (Z.pos (digits2_pos p)) - 1)
      with (Z.succ (Z.pos (digits2_pos p) - 1)) by lia.
    rewrite Z.pow_succ_r by lia. lia.
  - simpl. lia.
Qed.

(** What validity says of a mantissa and its exponent. *)
Lemma bounded_inv m e :
  bounded prec emax m e = true ->
  -1074 <= e <= 971
  /\ Z.pos m < 2 ^ 53
  /\ (-1074 < e -> 2 ^ 52 <= Z.pos m).
Proof.
  unfold bounded, canonical_mantissa. intros Hb.
  apply andb_true_iff in Hb. destruct Hb as [Hc He].
  apply Z.eqb_eq in Hc. apply Z.leb_le in He. rewrite fexp_le in Hc.
  unfold emax, prec in He.
  pose proof (digits2_pos_lt m) as Hlt. pose proof (digits2_pos_ge m) as Hge.
  set (dg := Z.pos (digits2_pos m)) in *.
  assert (Hdg : 1 <= dg) by (unfold dg; lia).
  split; [lia |]. split.
  - assert (2 ^ dg <= 2 ^ 53) by (apply Z.pow_le_mono_r; lia). lia.
  - intros Hn. assert (dg = 53) by lia.
    replace (dg - 1) with 52 in Hge by lia. exact Hge.
Qed.

Lemma shr_1_div2 r : 0 <= shr_m r -> shr_m (shr_1 r) = shr_m r / 2.
Proof.
  destruct r as [m rb sb]. simpl. intros Hm.
  destruct m as [| [p | p |] | p]; simpl; try reflexivity; try lia.
  - rewrite Pos2Z.inj_xI. Z.div_mod_to_equations. lia.
  - rewrite Pos2Z.inj_xO. Z.div_mod_to_equations. lia.
Qed.

Lemma iter_pos_shr_1_div p :
  forall r, 0 <= shr_m r ->
    shr_m (SpecFloat.iter_pos shr_1 p r) = shr_m r / 2 ^ Z.pos p.
Proof.
  induction p as [p IH | p IH |]; intros r Hr; cbn [SpecFloat.iter_pos].
  - assert (H1 : 0 <= shr_m (shr_1 r)) by (rewrite shr_1_div2 by lia; apply Z.div_pos; lia).
    assert (H2 : 0 <= shr_m (SpecFloat.iter_pos shr_1 p (shr_1 r)))
      by (rewrite IH by lia; apply Z.div_pos; [lia | apply Z.pow_pos_nonneg; lia]).
    rewrite IH, IH, shr_1_div2 by lia.
    rewrite !Z.div_div by (try apply Z.pow_pos_nonneg; lia).
    f_equal. change 2 with (2 ^ 1) at 1.
    rewrite <- !Z.pow_add_r by lia. f_equal. lia.
  - assert (H2 : 0 <= shr_m (SpecFloat.iter_pos shr_1 p r))
      by (rewrite IH by lia; apply Z.div_pos; [lia | apply Z.pow_pos_nonneg; lia]).
    rewrite IH, IH by lia.
    rewrite !Z.div_div by (try apply Z.pow_pos_nonneg; lia).
    f_equal. rewrite <- Z.pow_add_r by lia. f_equal. lia.
  - rewrite shr_1_div2 by lia. reflexivity.
Qed.

(** Above the smallest exponent, the shift of [shr_fexp] keeps a positive
    mantissa positive. *)
Lemma shr_fexp_pos m e l :
  0 < m -> -1074 <= e ->
  0 < shr_m (fst (shr_fexp prec emax m e l))
  /\ -1074 <= snd (shr_fexp prec emax m e l).
Proof.
  intros Hm He. unfold shr_fexp, shr. rewrite fexp_le.
  destruct m as [| p | p]; try lia.
  cbn [Zdigits2].
  pose proof (digits2_pos_ge p) as Hge.
  set (dg := Z.pos (digits2_pos p)) in *.
  assert (Hdg : 1 <= dg) by (unfold dg; lia).
  destruct (Z.max (dg + e - 53) (-1074) - e) as [| n | n] eqn:E; cbn [fst snd].
  - rewrite shr_record_of_loc_m. lia.
  - rewrite iter_pos_shr_1_div by (rewrite shr_record_of_loc_m; lia).
    rewrite shr_record_of_loc_m. split; [| lia].
    assert (Hn : Z.pos n = dg - 53) by lia.
    assert (Hpow : 2 ^ Z.pos n <= Z.pos p).
    { rewrite Hn. assert (2 ^ (dg - 53) <= 2 ^ (dg - 1)) by (apply Z.pow_le_mono_r; lia).
      lia. }
    assert (0 < 2 ^ Z.pos n) by (apply Z.pow_pos_nonneg; lia).
    assert (1 <= Z.pos p / 2 ^ Z.pos n) by (apply Z.div_le_lower_bound; lia).
    lia.
  - rewrite shr_record_of_loc_m. lia.
Qed.

Lemma round_nearest_even_pos m l : 0 < m -> 0 < round_nearest_even m l.
Proof.
  intros Hm. unfold round_nearest_even.
  destruct l as [| []]; [lia | destruct (Z.even m); lia | lia | lia].
Qed.

(** Rounding a positive mantissa above the smallest exponent gives a
    number of the same sign, never a zero and never a NaN. *)
Lemma binary_round_aux_sign s m e l :
  0 < m -> -1074 <= e ->
  match binary_round_aux prec emax s m e l with
  | S754_finite s' _ _ | S754_infinity s' => s' = s
  | _ => False
  end.
Proof.
  intros Hm He. unfold binary_round_aux.
  pose proof (shr_fexp_pos m e l Hm He) as [Hm1 He1].
  destruct (shr_fexp prec emax m e l) as [mrs' e']. cbn [fst snd] in Hm1, He1.
  pose proof (round_nearest_even_pos _ (loc_of_shr_record mrs') Hm1) as Hr.
  pose proof (shr_fexp_pos _ e' loc_Exact Hr He1) as [Hm2 He2].
  destruct (shr_fexp prec emax _ e' loc_Exact) as [mrs'' e''].
  cbn [fst snd] in Hm2, He2.
  destruct (shr_m mrs'') as [| p | p]; [lia | | lia].
  destruct (e'' <=? emax - prec); reflexivity.
Qed.

Lemma iter_xO_pow m d : Z.pos (Pos.iter xO m d) = Z.pos m * 2 ^ Z.pos d.
Proof.
  induction d as [| d IH] using Pos.peano_ind.
  - simpl. lia.
  - rewrite Pos.iter_succ, Pos2Z.inj_xO, IH, Pos2Z.inj_succ, Z.pow_succ_r by lia. lia.
Qed.

(** Aligning to a lower exponent multiplies the mantissa by the power of
    two. *)
Lemma shl_align_spec m e e' :
  e' <= e ->
  Z.pos (fst (shl_align m e e')) = Z.pos m * 2 ^ (e - e')
  /\ snd (shl_align m e e') <= e.
Proof.
  intros He. unfold shl_align.
  destruct (e' - e) as [| d | d] eqn:E; cbn [fst snd].
  - replace (e - e') with 0 by lia. simpl. lia.
  - lia.
  - rewrite iter_xO_pow. replace (e - e') with (Z.pos d) by lia. lia.
Qed.

Lemma shl_align_exponent m e e' : -1074 <= e -> -1074 <= e' ->
  -1074 <= snd (shl_align m e e').
Proof.
  intros He He'. unfold shl_align. destruct (e' - e); cbn [snd]; lia.
Qed.

Lemma binary_round_sign s m e :
  -1074 <= e ->
  match binary_round prec emax s m e with
  | S754_finite s' _ _ | S754_infinity s' => s' = s
  | _ => False
  end.
Proof.
  intros He. unfold binary_round.
  pose proof (shl_align_exponent m e (fexp prec emax (Z.pos (digits2_pos m) + e)) He) as Hz.
  rewrite fexp_le in Hz. specialize (Hz ltac:(lia)).
  rewrite fexp_le.
  destruct (shl_align m e _) as [mz ez]. cbn [snd] in Hz.
  apply binary_round_aux_sign; lia.
Qed.

(** The sign of the rounded difference is that of the exact one. *)
Lemma geb_binary_normalize D e :
  -1074 <= e ->
  Float.geb (binary_normalize prec emax D e false) Float.zero = (0 <=? D).
Proof.
  intros He. unfold binary_normalize.
  destruct D as [| p | p]; [reflexivity | |].
  - pose proof (binary_round_sign false p e He) as H.
    destruct (binary_round prec emax false p e) as [s' | s' | | s' m' e'];
      try contradiction; subst s'; reflexivity.
  - pose proof (binary_round_sign true p e He) as H.
    destruct (binary_round prec emax true p e) as [s' | s' | | s' m' e'];
      try contradiction; subst s'; reflexivity.
Qed.

(** For valid finite floats, [>=] is the order of the exact values, here
    scaled to the smaller exponent. *)
Lemma geb_finite sa ma ea sb mb eb :
  bounded prec emax ma ea = true ->
  bounded prec emax mb eb = true ->
  Float.geb (S754_finite sa ma ea) (S754_finite sb mb eb)
  = (cond_Zopp sb (Z.pos mb * 2 ^ (eb - Z.min ea eb))
     <=? cond_Zopp sa (Z.pos ma * 2 ^ (ea - Z.min ea eb))).
Proof.
  intros Ha Hb.
  destruct (bounded_inv _ _ Ha) as (Hea & Hma & Hna).
  destruct (bounded_inv _ _ Hb) as (Heb & Hmb & Hnb).
  assert (Hpa : 0 < Z.pos ma * 2 ^ (ea - Z.min ea eb)).
  { apply Z.mul_pos_pos; [lia |]. apply Z.pow_pos_nonneg; lia. }
  assert (Hpb : 0 < Z.pos mb * 2 ^ (eb - Z.min ea eb)).
  { apply Z.mul_pos_pos; [lia |]. apply Z.pow_pos_nonneg; lia. }
  assert (Hcmp : (ea < eb -> Z.pos ma * 2 ^ (ea - Z.min ea eb)
                             < Z.pos mb * 2 ^ (eb - Z.min ea eb))
                 /\ (eb < ea -> Z.pos mb * 2 ^ (eb - Z.min ea eb)
                                < Z.pos ma * 2 ^ (ea - Z.min ea eb))).
  { split; intros Hlt.
    - replace (Z.min ea eb) with ea by lia. replace (ea - ea) with 0 by lia.
      assert (2 ^ 1 <= 2 ^ (eb - ea)) by (apply Z.pow_le_mono_r; lia).
      specialize (Hnb ltac:(lia)). change (2 ^ 53) with (2 ^ 52 * 2 ^ 1) in Hma.
      change (2 ^ 0) with 1. nia.
    - replace (Z.min ea eb) with eb by lia. replace (eb - eb) with 0 by lia.
      assert (2 ^ 1 <= 2 ^ (ea - eb)) by (apply Z.pow_le_mono_r; lia).
      specialize (Hna ltac:(lia)). change (2 ^ 53) with (2 ^ 52 * 2 ^ 1) in Hmb.
      change (2 ^ 0) with 1. nia. }
  destruct Hcmp as [Hlt Hgt].
  unfold Float.geb, SFcompare.
  destruct sa, sb; cbn [cond_Zopp].
  - (* both negative *)
    destruct (Z.compare_spec ea eb) as [Heq | Hl | Hg].
    + subst eb. replace (Z.min ea ea) with ea by lia. replace (ea - ea) with 0 by lia.
      change (2 ^ 0) with 1. rewrite !Z.mul_1_r.
      rewrite Pos.compare_cont_spec. cbn [Pos.switch_Eq].
      change (Pos.compare ma mb) with (Z.compare (Z.pos ma) (Z.pos mb)).
      destruct (Z.compare_spec (Z.pos ma) (Z.pos mb)); cbn [CompOpp];
        symmetry; [apply Z.leb_le | apply Z.leb_le | apply Z.leb_gt]; lia.
    + specialize (Hlt Hl). symmetry. apply Z.leb_le. lia.
    + specialize (Hgt Hg). symmetry. apply Z.leb_gt. lia.
  - symmetry. apply Z.leb_gt. lia.
  - symmetry. apply Z.leb_le. lia.
  - destruct (Z.compare_spec ea eb) as [Heq | Hl | Hg].
    + subst eb. replace (Z.min ea ea) with ea by lia. replace (ea - ea) with 0 by lia.
      change (2 ^ 0) with 1. rewrite !Z.mul_1_r.
      rewrite Pos.compare_cont_spec. cbn [Pos.switch_Eq].
      change (Pos.compare ma mb) with (Z.compare (Z.pos ma) (Z.pos mb)).
      destruct (Z.compare_spec (Z.pos ma) (Z.pos mb));
        symmetry; [apply Z.leb_le | apply Z.leb_gt | apply Z.leb_le]; lia.
    + specialize (Hlt Hl). symmetry. apply Z.leb_gt. lia.
    + specialize (Hgt Hg). symmetry. apply Z.leb_le. lia.
Qed.

(** X12. Between finite amounts the sign of a delta is the sign of the
    comparison: [a - b >= 0] holds exactly when [a >= b] (the rounded
    difference never turns a difference into zero), so [format_billions]
    writes ['+'] for [a - b] exactly when [a >= b], and ['-'] exactly when
    [a < b]. *)
Theorem delta_sign_is_comparison (a b : float) :
  is_binary64 a -> is_binary64 b ->
  is_finite a = true -> is_finite b = true ->
  Float.geb (Float.sub a b) Float.zero = Float.geb a b
  /\ exists digits,
       format_billions (Float.sub a b)
       = String (if Float.geb a b then "+"%char else "-"%char) digits.
Proof.
  intros Ha Hb Hfa Hfb.
  assert (Hsign : Float.geb (Float.sub a b) Float.zero = Float.geb a b).
  { unfold is_binary64 in Ha, Hb.
    destruct a as [sa | sa | | sa ma ea]; try discriminate;
      destruct b as [sb | sb | | sb mb eb]; try discriminate.
    - destruct sa, sb; reflexivity.
    - destruct sa, sb; reflexivity.
    - destruct sa, sb; reflexivity.
    - cbn [valid_binary] in Ha, Hb.
      rewrite (geb_finite _ _ _ _ _ _ Ha Hb).
      destruct (bounded_inv _ _ Ha) as (Hea & _).
      destruct (bounded_inv _ _ Hb) as (Heb & _).
      unfold Float.sub, SFsub.
      rewrite geb_binary_normalize by lia.
      destruct (shl_align_spec ma ea (Z.min ea eb) ltac:(lia)) as [-> _].
      destruct (shl_align_spec mb eb (Z.min ea eb) ltac:(lia)) as [-> _].
      destruct sa, sb; cbn [cond_Zopp];
        match goal with
        | |- (0 <=? ?x) = (?y <=? ?z) =>
            destruct (Z.leb_spec 0 x); symmetry;
            [apply Z.leb_le | apply Z.leb_gt]; lia
        end. }
  split; [exact Hsign |].
  exists ("$" +:+ format_comma_2f (Float.abs (billions (Float.sub a b))) +:+ " B").
  unfold format_billions. rewrite Hsign.
  destruct (Float.geb a b); reflexivity.
Qed.

Lemma delta_sign_is_comparison_witness :
  is_binary64 Examples.y_debt /\ is_binary64 Examples.today_debt
  /\ is_finite Examples.y_debt = true /\ is_finite Examples.today_debt = true
  /\ Float.geb Examples.y_debt Examples.today_debt = false
  /\ Float.geb (Float.sub Examples.y_debt Examples.today_debt) Float.zero = false.
Proof.
  split; [reflexivity |]. split; [reflexivity |].
  split; [reflexivity |]. split; [reflexivity |]. split; [reflexivity |].
  destruct (delta_sign_is_comparison Examples.y_debt Examples.today_debt
              eq_refl eq_refl eq_refl eq_refl) as [H _].
  rewrite H. reflexivity.
Defined.

(** ** A date survives [isoformat] *)

Lemma month_day_checked :
  forallb (fun k => month_day_ok (Z.of_nat k) true && month_day_ok (Z.of_nat k) false)
    (seq 0 365) = true.
Proof. vm_compute. reflexivity. Qed.

Lemma month_day_spec n leapyear :
  0 <= n <= 364 -> month_day_ok n leapyear = true.
Proof.
  intros Hn. pose proof month_day_checked as H.
  rewrite forallb_forall in H. specialize (H (Z.to_nat n)).
  rewrite Z2Nat.id in H by lia.
  assert (Hin : In (Z.to_nat n) (seq 0 365)) by (apply in_seq; lia).
  apply H in Hin. apply andb_true_iff in Hin.
  destruct leapyear; tauto.
Qed.

Lemma days_in_month_flag y m :
  Date.days_in_month y m
  = Date.table Date.DAYS_IN_MONTH m + (if (m =? 2) && Date.is_leap y then 1 else 0).
Proof.
  unfold Date.days_in_month. destruct (m =? 2) eqn:E; simpl; [| lia].
  apply Z.eqb_eq in E. subst m. destruct (Date.is_leap y); reflexivity.
Qed.

(** What [ord2ymd] returns is a date of the calendar, and [ymd2ord] takes
    it back to the ordinal. *)
Lemma ord2ymd_spec d :
  1 <= d <= 3652059 ->
  let '(y, m, dd) := Date.ord2ymd d in
  1 <= y <= 9999 /\ 1 <= m <= 12 /\ 1 <= dd <= Date.days_in_month y m
  /\ Date.ymd2ord y m dd = d.
Proof.
  intros Hd. unfold Date.ord2ymd.
  set (n0 := d - 1).
  set (n400 := n0 / 146097). set (r400 := n0 mod 146097).
  set (n100 := r400 / 36524). set (r100 := r400 mod 36524).
  set (n4 := r100 / 1461). set (r4 := r100 mod 1461).
  set (n1 := r4 / 365). set (n := r4 mod 365).
  cbv zeta.
  set (year := n400 * 400 + 1 + n100 * 100 + n4 * 4 + n1).
  destruct ((n1 =? 4) || (n100 =? 4)) eqn:Hsp.
  - (* the last day of a leap year *)
    assert (Hleap : Date.is_leap (year - 1) = true).
    { unfold Date.is_leap. apply orb_true_iff in Hsp.
      apply andb_true_iff. split.
      - apply Z.eqb_eq. subst year n1 r4 n4 r100 n100 r400 n400 n0.
        destruct Hsp as [H | H]; apply Z.eqb_eq in H;
          Z.div_mod_to_equations; lia.
      - apply orb_true_iff.
        destruct (Z.eqb_spec ((year - 1) mod 400) 0) as [E | E]; [by right |].
        left. apply negb_true_iff, Z.eqb_neq.
        subst year n1 r4 n4 r100 n100 r400 n400 n0.
        destruct Hsp as [H | H]; apply Z.eqb_eq in H;
          Z.div_mod_to_equations; lia. }
    rewrite days_in_month_flag, Hleap.
    unfold Date.ymd2ord, Date.days_before_month. rewrite Hleap.
    change (Date.table Date.DAYS_IN_MONTH 12) with 31.
    change (Date.table Date.DAYS_BEFORE_MONTH 12) with 334.
    cbn [Z.eqb Pos.eqb Z.ltb Z.compare Pos.compare Pos.compare_cont andb].
    unfold Date.days_before_year.
    apply orb_true_iff in Hsp.
    subst year n1 r4 n4 r100 n100 r400 n400 n0.
    destruct Hsp as [H | H]; apply Z.eqb_eq in H;
      Z.div_mod_to_equations; lia.
  - apply orb_false_iff in Hsp. destruct Hsp as [Hn1 Hn100].
    apply Z.eqb_neq in Hn1. apply Z.eqb_neq in Hn100.
    set (leapyear := (n1 =? 3) && (negb (n4 =? 24) || (n100 =? 3))).
    assert (Hleap : Date.is_leap year = leapyear).
    { unfold Date.is_leap, leapyear.
      destruct (Z.eqb_spec n1 3) as [E1 | E1];
        destruct (Z.eqb_spec n4 24) as [E4 | E4];
        destruct (Z.eqb_spec n100 3) as [E100 | E100];
        destruct (Z.eqb_spec (year mod 4) 0) as [Y4 | Y4];
        destruct (Z.eqb_spec (year mod 100) 0) as [Y100 | Y100];
        destruct (Z.eqb_spec (year mod 400) 0) as [Y400 | Y400];
        try reflexivity; exfalso;
        subst year n1 r4 n4 r100 n100 r400 n400 n0;
        Z.div_mod_to_equations; lia. }
    assert (Hn : 0 <= n <= 364).
    { subst n. Z.div_mod_to_equations. lia. }
    pose proof (month_day_spec n leapyear Hn) as Hok.
    unfold month_day_ok, month_day in Hok. cbv zeta in Hok.
    assert (Hyear : 1 <= year <= 9999
                    /\ Date.days_before_year year + n + 1 = d).
    { unfold Date.days_before_year.
      subst year n n1 r4 n4 r100 n100 r400 n400 n0.
      Z.div_mod_to_equations. lia. }
    destruct Hyear as [Hy Hdby].
    destruct (n <? _) in Hok |- *.
    + rewrite !andb_true_iff in Hok. destruct Hok as ((((H1 & H2) & H3) & H4) & H5).
      apply Z.leb_le in H1, H2, H3, H4. apply Z.eqb_eq in H5.
      rewrite days_in_month_flag, Hleap.
      unfold Date.ymd2ord, Date.days_before_month. rewrite Hleap. lia.
    + rewrite !andb_true_iff in Hok. destruct Hok as ((((H1 & H2) & H3) & H4) & H5).
      apply Z.leb_le in H1, H2, H3, H4. apply Z.eqb_eq in H5.
      rewrite days_in_month_flag, Hleap.
      unfold Date.ymd2ord, Date.days_before_month. rewrite Hleap. lia.
Qed.

Lemma digit_of_digit_char k : 0 <= k <= 9 -> Date.digit_of (digit_char k) = Some k.
Proof.
  intros Hk. assert (H : k = 0 \/ k = 1 \/ k = 2 \/ k = 3 \/ k = 4 \/ k = 5 \/ k = 6
                         \/ k = 7 \/ k = 8 \/ k = 9) by lia.
  repeat (destruct H as [-> | H]; [reflexivity |]). subst k. reflexivity.
Qed.

Lemma number_of_app l a acc k :
  Date.number_of l acc = Some k -> 0 <= a <= 9 ->
  Date.number_of (l ++ [digit_char a]) acc = Some (10 * k + a).
Proof.
  revert acc. induction l as [| x l IH]; intros acc Hl Ha; simpl in *.
  - injection Hl as <-. by rewrite digit_of_digit_char.
  - destruct (Date.digit_of x); [| discriminate]. by apply IH.
Qed.

(** [width] digits, and they read back as the number. *)
Lemma padded_spec width n :
  0 <= n < 10 ^ Z.of_nat width ->
  length (Date.padded width n) = width
  /\ Date.number_of (Date.padded width n) 0 = Some n.
Proof.
  revert n. induction width as [| w IH]; intros n Hn.
  - simpl in *. split; [reflexivity |]. f_equal. lia.
  - cbn [Date.padded].
    rewrite Nat2Z.inj_succ, Z.pow_succ_r in Hn by lia.
    assert (Hq : 0 <= n / 10 < 10 ^ Z.of_nat w) by (Z.div_mod_to_equations; lia).
    destruct (IH (n / 10) Hq) as [Hlen Hnum].
    split.
    + rewrite length_app, Hlen. simpl. lia.
    + rewrite (number_of_app _ (n mod 10) 0 (n / 10) Hnum)
        by (Z.div_mod_to_equations; lia).
      f_equal. Z.div_mod_to_equations. lia.
Qed.

Lemma list_of_length_4 {A} (l : list A) :
  length l = 4%nat -> exists a b c d, l = [a; b; c; d].
Proof.
  destruct l as [| a [| b [| c [| d [| e l]]]]]; try discriminate.
  intros _. by exists a, b, c, d.
Qed.

Lemma list_of_length_2 {A} (l : list A) :
  length l = 2%nat -> exists a b, l = [a; b].
Proof.
  destruct l as [| a [| b [| c l]]]; try discriminate.
  intros _. by exists a, b.
Qed.

(** The text that [isoformat] writes reads back as the same date. *)
Lemma of_iso_isoformat d :
  Date.in_range d = true -> Date.of_iso (Date.isoformat d) = Some d.
Proof.
  unfold Date.in_range, Date.MINORDINAL, Date.MAXORDINAL.
  intros Hr. apply andb_true_iff in Hr. destruct Hr as [H1 H2].
  apply Z.leb_le in H1, H2.
  pose proof (ord2ymd_spec d ltac:(lia)) as Hspec.
  unfold Date.isoformat.
  destruct (Date.ord2ymd d) as [[y m] dd].
  destruct Hspec as (Hy & Hm & Hdd & Hord).
  assert (Hdim : Date.days_in_month y m <= 31).
  { unfold Date.days_in_month, Date.table, Date.DAYS_IN_MONTH.
    destruct ((m =? 2) && Date.is_leap y); [lia |].
    destruct (Z.to_nat (m - 1)) as [| [| [| [| [| [| [| [| [| [| [| [| k]]]]]]]]]]]];
      simpl; try lia.
    destruct k; simpl; lia. }
  destruct (padded_spec 4 y ltac:(simpl; lia)) as [Hly Hny].
  destruct (padded_spec 2 m ltac:(simpl; lia)) as [Hlm Hnm].
  destruct (padded_spec 2 dd ltac:(simpl; lia)) as [Hld Hnd].
  destruct (list_of_length_4 _ Hly) as (y1 & y2 & y3 & y4 & Ey).
  destruct (list_of_length_2 _ Hlm) as (m1 & m2 & Em).
  destruct (list_of_length_2 _ Hld) as (d1 & d2 & Ed).
  rewrite Ey in Hny |- *. rewrite Em in Hnm |- *. rewrite Ed in Hnd |- *.
  unfold Date.of_iso, string_of_chars.
  rewrite list_ascii_of_string_of_list_ascii.
  cbn [app]. change (Ascii.eqb "-" "-") with true. cbn [andb negb].
  rewrite Hny, Hnm, Hnd.
  replace ((1 <=? y) && (1 <=? m) && (m <=? 12) && (1 <=? dd)
           && (dd <=? Date.days_in_month y m)) with true.
  - by rewrite Hord.
  - symmetry. rewrite !andb_true_iff, !Z.leb_le. lia.
Qed.

(** ** The run against the model of the dataset *)

Lemma row_of_amount r : row_of r !! "tot_pub_debt_out_amt" = Some (tot_pub_debt_out_amt r).
Proof.
  unfold row_of. rewrite lookup_insert_ne by discriminate.
  apply lookup_singleton_eq.
Qed.

Lemma row_of_date r : row_of r !! "record_date" = Some (Date.isoformat (record_date r)).
Proof. unfold row_of. apply lookup_insert_eq. Qed.

Lemma parse_row_of r w a s :
  snd (parse_debt (row_of r) w) = Ok (a, s) ->
  py_float w (tot_pub_debt_out_amt r) = Some a /\ s = Date.isoformat (record_date r).
Proof.
  unfold parse_debt, bind, getitem, of_option.
  rewrite row_of_amount, row_of_date. simpl.
  destruct (py_float w (tot_pub_debt_out_amt r)); [| discriminate].
  simpl. intros [= <- <-]. done.
Qed.

Lemma fetch_latest_model w db latest_row :
  requests_get w = serve db ->
  snd (fetch_latest_debt_row w) = Ok latest_row ->
  exists r, most_recent db r /\ latest_row = row_of r.
Proof.
  intros Hw. unfold fetch_latest_debt_row.
  rewrite (request_answer_with latest_params w (map row_of (take 1 (sort_desc db))))
    by (rewrite Hw; apply serve_latest).
  pose proof (sort_desc_head db) as Hhead.
  destruct (sort_desc db) as [| r rest]; [discriminate |].
  simpl. intros [= <-]. by exists r.
Qed.

Lemma fetch_on_or_before_model w db t y_row :
  requests_get w = serve db ->
  Date.in_range t = true ->
  snd (fetch_debt_on_or_before (Date.isoformat t) w) = Ok y_row ->
  exists r, most_recent_on_or_before db t r /\ y_row = row_of r.
Proof.
  intros Hw Ht. unfold fetch_debt_on_or_before.
  rewrite (request_answer_with _ w
             (map row_of (take 1 (sort_desc
                (List.filter (fun r => record_date r <=? t) db)))))
    by (rewrite Hw; apply serve_on_or_before; by apply of_iso_isoformat).
  pose proof (sort_desc_head (List.filter (fun r => record_date r <=? t) db)) as Hhead.
  destruct (sort_desc _) as [| r rest]; [discriminate |].
  simpl. intros [= <-]. exists r. split; [| reflexivity].
  destruct Hhead as [Hin Hmax]. apply filter_on_or_before in Hin.
  destruct Hin as [Hin Hle]. split; [exact Hin |]. split; [exact Hle |].
  intros r' Hin' Hle'. apply Hmax. by apply filter_on_or_before.
Qed.

(** X13. Against the model of the dataset API, the text that
    [build_tweet_text] returns is made of the amount of a most recent
    record, of the amount of a most recent record dated at least one day
    before the date [d] read from it, and of the amount of a most recent
    record dated at least seven days before [d]: the date that the script
    writes with [isoformat] is the date that the API reads.  When the date
    parser reads the date string of the latest record as the ISO date it
    is, [d] is the date of the latest record, so that "yesterday" is the
    last record before the latest one, weekend or not. *)
Theorem build_reads_most_recent_records
  (w : World) (db : list DebtRecord) (text : string) :
  requests_get w = serve db ->
  snd (build_tweet_text w) = Ok text ->
  exists r0 ry rw d today_debt y_debt w_debt,
    most_recent db r0
    /\ dateparser_parse w (Date.isoformat (record_date r0)) = Some d
    /\ most_recent_on_or_before db (d - 1) ry
    /\ most_recent_on_or_before db (d - 7) rw
    /\ py_float w (tot_pub_debt_out_amt r0) = Some today_debt
    /\ py_float w (tot_pub_debt_out_amt ry) = Some y_debt
    /\ py_float w (tot_pub_debt_out_amt rw) = Some w_debt
    /\ text = tweet_of today_debt y_debt w_debt
                (Float.sub today_debt y_debt) (Float.sub today_debt w_debt)
    /\ (Date.in_range (record_date r0) = true ->
        dateparser_parse w (Date.isoformat (record_date r0))
        = Date.of_iso (Date.isoformat (record_date r0)) ->
        d = record_date r0 /\ record_date ry < record_date r0).
Proof.
  intros Hw Hb.
  destruct (build_returns_fetched w text Hb) as (d & a0 & a1 & a2 & Hf & _ & Ht).
  destruct Hf as (row0 & s0 & row1 & s1 & row2 & s2
                  & Hf0 & Hp0 & Hd & Hr1 & Hf1 & Hp1 & Hr7 & Hf2 & Hp2).
  destruct (fetch_latest_model w db row0 Hw Hf0) as (r0 & Hm0 & ->).
  destruct (fetch_on_or_before_model w db (d - 1) row1 Hw Hr1 Hf1) as (ry & Hmy & ->).
  destruct (fetch_on_or_before_model w db (d - 7) row2 Hw Hr7 Hf2) as (rw & Hmw & ->).
  apply parse_row_of in Hp0, Hp1, Hp2.
  destruct Hp0 as [Ha0 ->]. destruct Hp1 as [Ha1 _]. destruct Hp2 as [Ha2 _].
  exists r0, ry, rw, d, a0, a1, a2.
  repeat (split; [assumption |]).
  intros Hrange Hparser. rewrite Hparser, (of_iso_isoformat _ Hrange) in Hd.
  injection Hd as <-. split; [reflexivity |].
  destruct Hmy as (_ & Hle & _). lia.
Qed.

Lemma build_reads_most_recent_records_witness :
  requests_get Examples.world = serve Examples.db
  /\ snd (build_tweet_text Examples.world)
     = Ok (tweet_of Examples.today_debt Examples.y_debt Examples.w_debt
             (Float.sub Examples.today_debt Examples.y_debt)
             (Float.sub Examples.today_debt Examples.w_debt))
  /\ exists r0 ry rw,
       most_recent Examples.db r0
       /\ most_recent_on_or_before Examples.db (record_date r0 - 1) ry
       /\ most_recent_on_or_before Examples.db (record_date r0 - 7) rw.
Proof.
  assert (Hb : snd (build_tweet_text Examples.world)
               = Ok (tweet_of Examples.today_debt Examples.y_debt Examples.w_debt
                       (Float.sub Examples.today_debt Examples.y_debt)
                       (Float.sub Examples.today_debt Examples.w_debt)))
    by (vm_compute; reflexivity).
  split; [reflexivity |]. split; [exact Hb |].
  destruct (build_reads_most_recent_records Examples.world Examples.db _ eq_refl Hb)
    as (r0 & ry & rw & d & a0 & a1 & a2 & H0 & Hd & Hy & Hw & _ & _ & _ & _ & Hiso).
  exists r0, ry, rw. split; [exact H0 |].
  assert (Hin : In r0 Examples.db) by apply H0.
  assert (Hrange : Date.in_range (record_date r0) = true).
  { simpl in Hin.
    destruct Hin as [<- | [<- | [<- | [<- | [<- | []]]]]]; reflexivity. }
  destruct (Hiso Hrange eq_refl) as [-> _]. by split.
Defined.
